(** * fastorm: a shallow embedding of [orm/fastorm.py]

    The development follows the Python source class by class:
    field descriptors, the record type (a subclass of [Model]) with its
    class namespace, the schema compiler [create_table], the record
    instance with its attribute protocol, persistence ([save], [delete]),
    the query builder and the relation helpers.

    Effects are explicit.  The process state ([World]) holds the
    [_conn] class attributes, the handles that are open, the state of the
    storage engine and the trace of calls made on connections.  What the
    code relies on without fixing it is a parameter of the development
    ([Env]): the storage engine (sqlite3), the order in which the
    interpreter iterates a set, and [str.lower] beyond ASCII. *)

From Stdlib Require Import ZArith String Ascii DecimalString.
From stdpp Require Import base option list strings gmap sets.

Local Open Scope Z_scope.
Local Open Scope string_scope.
Local Open Scope list_scope.
Local Open Scope stdpp_scope.

(** ** Python values and helpers *)

(** The values the mapping layer moves between instances and storage.
    The layer never inspects them except for [is None]; reals and blobs,
    which it passes along in the same way, are left out. *)
Inductive Value : Type :=
  | VNone
  | VInt (z : Z)
  | VStr (s : string).

#[global] Instance Value_eq_dec : EqDecision Value.
Proof. solve_decision. Defined.

(** [v is not None] *)
Definition is_not_None (v : Value) : bool :=
  match v with VNone => false | _ => true end.

(** [bool(v)] and [str(v)] *)
Definition py_truthy (v : Value) : bool :=
  match v with
  | VNone => false
  | VInt z => negb (Z.eqb z 0)
  | VStr s => negb (bool_decide (s = ""))
  end.

(** Exceptions raised by the layer, and [EngineError] for every
    exception that comes out of the sqlite3 module (a statement or a
    commit that fails, a connection that cannot be opened, a call on a
    closed connection). *)
Inductive Exn : Type :=
  | ValueError (msg : string)
  | AttributeError (msg : string)
  | KeyError (key : string)
  | UnboundLocalError (var : string)
  | TypeError
  | IndexError
  | EngineError.

#[global] Instance Exn_eq_dec : EqDecision Exn.
Proof. solve_decision. Defined.

Inductive Outcome (A : Type) : Type :=
  | Ok (a : A)
  | Raise (e : Exn).
Arguments Ok {A} a.
Arguments Raise {A} e.

Definition is_Ok {A} (o : Outcome A) : bool :=
  match o with Ok _ => true | Raise _ => false end.

(** [sep.join(parts)] *)
Definition str_join (sep : string) (parts : list string) : string :=
  String.concat sep parts.

(** [str(n)] for a Python int *)
Definition str_int (n : Z) : string :=
  NilZero.string_of_int (Z.to_int n).

Definition py_str (v : Value) : string :=
  match v with
  | VNone => "None"
  | VInt z => str_int z
  | VStr s => s
  end.

(** A [str] is held as the bytes of its UTF-8 encoding; it is ASCII when
    every byte is below 128. *)
Fixpoint ascii_only (s : string) : bool :=
  match s with
  | EmptyString => true
  | String c s' => (Nat.ltb (nat_of_ascii c) 128 && ascii_only s')%bool
  end.

(** [s.lower()] for an ASCII [s]: the letters A to Z are replaced by a
    to z and every other character is kept.  ([str_lower] below is
    [s.lower()] for any [s].) *)
Definition lower_ascii (c : ascii) : ascii :=
  let n := nat_of_ascii c in
  if (Nat.leb 65 n && Nat.leb n 90)%bool then ascii_of_nat (n + 32) else c.

Fixpoint lower (s : string) : string :=
  match s with
  | EmptyString => EmptyString
  | String c s' => String (lower_ascii c) (lower s')
  end.

(** [s.startswith('_')] *)
Definition startswith_underscore (s : string) : bool :=
  match s with
  | String c _ => bool_decide (c = "_"%char)
  | EmptyString => false
  end.

(** Truth value of a string and of an optional string ([None] and the
    empty string are false). *)
Definition truthy_str (s : string) : bool :=
  negb (bool_decide (s = "")).

Definition truthy_opt (o : option string) : bool :=
  match o with Some s => truthy_str s | None => false end.

(** What an f-string prints for an attribute that is [None] or a [str]. *)
Definition fmt_opt (o : option string) : string :=
  match o with Some s => s | None => "None" end.

(** ** Insertion-ordered dictionaries

    [self._data] is a Python [dict]: keys are unique, iteration follows
    insertion order, assignment to an existing key keeps its place. *)
Definition Dict : Type := list (string * Value).

Fixpoint dict_get (d : Dict) (k : string) : option Value :=
  match d with
  | [] => None
  | (k', v) :: d' => if decide (k' = k) then Some v else dict_get d' k
  end.

(** [k in d] *)
Definition dict_mem (d : Dict) (k : string) : bool :=
  match dict_get d k with Some _ => true | None => false end.

(** [d[k] = v] *)
Fixpoint dict_set (d : Dict) (k : string) (v : Value) : Dict :=
  match d with
  | [] => [(k, v)]
  | (k', v') :: d' =>
      if decide (k' = k) then (k, v) :: d' else (k', v') :: dict_set d' k v
  end.

(** [d.keys()] *)
Definition dict_keys (d : Dict) : list string := d.*1.

(** [[d[c] for c in cols]]; the first missing key raises [KeyError]. *)
Fixpoint dict_getitems (d : Dict) (cols : list string) : Outcome (list Value) :=
  match cols with
  | [] => Ok []
  | c :: cols' =>
      match dict_get d c with
      | None => Raise (KeyError c)
      | Some v =>
          match dict_getitems d cols' with
          | Ok vs => Ok (v :: vs)
          | Raise e => Raise e
          end
      end
  end.

(** ** Field descriptors and record types *)

(** [class Column] *)
Record Column : Type := MkColumn {
  sql_type : string;
  primary_key : bool;
  nullable : bool;
  unique : bool
}.

(** A record type is a subclass of [Model]: its name, the [_table_name]
    it resolves to ([None] is inherited from [Model] when the class body
    does not bind it) and the items of its [__dict__] in order.  A
    [ForeignKey] holds the class it references.  Everything in the class
    namespace that is neither a [Column] nor a [ForeignKey] (the bindings
    of [__module__], [_table_name], [__doc__], methods) is [FOther]. *)
Inductive ModelClass : Type :=
  | MkModelClass (cls_name : string) (table : option string)
                 (items : list (string * Field))
with Field : Type :=
  | FColumn (c : Column)
  | FForeignKey (model : ModelClass) (fk_nullable : bool)
  | FOther.

Definition cls_name (cls : ModelClass) : string :=
  match cls with MkModelClass n _ _ => n end.

Definition _table_name (cls : ModelClass) : option string :=
  match cls with MkModelClass _ t _ => t end.

(** The items of [cls.__dict__] as the class statement leaves them. *)
Definition cls_dict (cls : ModelClass) : list (string * Field) :=
  match cls with MkModelClass _ _ items => items end.

(** [cls.__dict__.items()] at run time: once [get_connection] has bound
    [_conn] on the class itself, that binding is the last item. *)
Definition class_items (cls : ModelClass) (conn_bound : bool)
  : list (string * Field) :=
  cls_dict cls ++ (if conn_bound then [("_conn", FOther)] else []).

(** [Model.get_primary_key]; a binding of [_conn] at the end of the
    namespace is passed over like every other item that is not a
    [Column] ([first_primary_key_conn] below). *)
Fixpoint first_primary_key (items : list (string * Field)) : option string :=
  match items with
  | [] => None
  | (name, FColumn c) :: rest =>
      if primary_key c then Some name else first_primary_key rest
  | _ :: rest => first_primary_key rest
  end.

Definition get_primary_key (cls : ModelClass) : string :=
  match first_primary_key (cls_dict cls) with
  | Some name => name
  | None => "id"
  end.

(** ** Schema compiler: the statement text of [Model.create_table] *)

(** The four accumulators of the first loop. *)
Record Scan : Type := MkScan {
  columns : list string;
  primary_keys : list string;
  foreign_keys : list (string * ModelClass);
  unique_constraints : list string
}.

Definition null_clause (b : bool) : string :=
  if b then " NULL" else " NOT NULL".

Definition scan_item (acc : Scan) (item : string * Field) : Scan :=
  match item with
  | (name, FColumn field) =>
      let uniq := if unique field then " UNIQUE" else "" in
      {| columns := columns acc ++
           [name +:+ " " +:+ sql_type field +:+ null_clause (nullable field) +:+ uniq];
         primary_keys :=
           if primary_key field then primary_keys acc ++ [name]
           else primary_keys acc;
         foreign_keys := foreign_keys acc;
         unique_constraints :=
           if (unique field && negb (primary_key field))%bool
           then unique_constraints acc ++ [name]
           else unique_constraints acc |}
  | (name, FForeignKey model fk_null) =>
      {| columns := columns acc ++
           [name +:+ " " +:+ "INTEGER" +:+ null_clause fk_null];
         primary_keys := primary_keys acc;
         foreign_keys := foreign_keys acc ++ [(name, model)];
         unique_constraints := unique_constraints acc |}
  | (_, FOther) => acc
  end.

Definition scan (items : list (string * Field)) : Scan :=
  fold_left scan_item items (MkScan [] [] [] []).

(** The loop variable [field] stays bound after the first loop to the
    value of the last item iterated; it is unbound when the namespace is
    empty. *)
Definition field_after_loop (items : list (string * Field)) : option Field :=
  snd <$> last items.

(** [field.nullable], read after the loop *)
Definition field_nullable (field : option Field) : Outcome bool :=
  match field with
  | Some (FColumn c) => Ok (nullable c)
  | Some (FForeignKey _ n) => Ok n
  | Some FOther => Raise (AttributeError "nullable")
  | None => Raise (UnboundLocalError "field")
  end.

Definition on_delete (b : bool) : string :=
  if b then "SET NULL" else "CASCADE".

(** The text of one foreign-key clause, given the value [field.nullable]
    evaluated to. *)
Definition fk_clause (b : bool) (fk : string * ModelClass) : string :=
  ", FOREIGN KEY(" +:+ fk.1 +:+ ") REFERENCES " +:+
  fmt_opt (_table_name fk.2) +:+ "(" +:+ get_primary_key fk.2 +:+ ") " +:+
  "ON DELETE " +:+ on_delete b.

(** The second loop: one clause per recorded foreign key, each reading
    [field.nullable]. *)
Fixpoint fk_clauses (field : option Field) (fks : list (string * ModelClass))
  : Outcome (list string) :=
  match fks with
  | [] => Ok []
  | fk :: rest =>
      match field_nullable field with
      | Raise e => Raise e
      | Ok b =>
          match fk_clauses field rest with
          | Ok cs => Ok (fk_clause b fk :: cs)
          | Raise e => Raise e
          end
      end
  end.

Definition pk_clause (pks : list string) : string :=
  match pks with
  | [] => ""
  | _ => ", PRIMARY KEY (" +:+ str_join ", " pks +:+ ")"
  end.

Definition unique_clauses (cols : list string) : list string :=
  (fun col => ", UNIQUE(" +:+ col +:+ ")") <$> cols.

(** Everything [create_table] computes before it asks for a connection;
    [conn_bound] tells whether the class already has its own [_conn]. *)
Definition create_table_sql (cls : ModelClass) (conn_bound : bool)
  : Outcome string :=
  if negb (truthy_opt (_table_name cls)) then
    Raise (ValueError "Nombre de tabla no definido")
  else
    let items := class_items cls conn_bound in
    let s := scan items in
    match fk_clauses (field_after_loop items) (foreign_keys s) with
    | Raise e => Raise e
    | Ok fks =>
        Ok ("CREATE TABLE IF NOT EXISTS " +:+ fmt_opt (_table_name cls) +:+ " (" +:+
            str_join ", " (columns s) +:+ pk_clause (primary_keys s) +:+
            str_join "" fks +:+ str_join "" (unique_clauses (unique_constraints s)) +:+ ")")
    end.

(** The record types of [example.py], with the namespace CPython builds
    for a class body without a docstring: [__module__], the bindings of
    the body in order, then [__doc__] bound to [None].  (CPython 3.13
    adds [__firstlineno__] after [__module__] and [__static_attributes__]
    before [__doc__]; like these two they are items that are not
    descriptors, and the last item is still [__doc__].) *)
Module Example.
Definition Department : ModelClass :=
  MkModelClass "Department" (Some "departments")
    [ ("__module__", FOther); ("_table_name", FOther);
      ("id", FColumn (MkColumn "INTEGER" true true false));
      ("name", FColumn (MkColumn "TEXT" false false true));
      ("budget", FColumn (MkColumn "REAL" false true false));
      ("__doc__", FOther) ].

Definition Employee : ModelClass :=
  MkModelClass "Employee" (Some "employees")
    [ ("__module__", FOther); ("_table_name", FOther);
      ("id", FColumn (MkColumn "INTEGER" true true false));
      ("name", FColumn (MkColumn "TEXT" false false false));
      ("email", FColumn (MkColumn "TEXT" false true true));
      ("salary", FColumn (MkColumn "REAL" false true false));
      ("department_id", FForeignKey Department false);
      ("__doc__", FOther) ].

Definition Project : ModelClass :=
  MkModelClass "Project" (Some "projects")
    [ ("__module__", FOther); ("_table_name", FOther);
      ("id", FColumn (MkColumn "INTEGER" true true false));
      ("name", FColumn (MkColumn "TEXT" false false false));
      ("deadline", FColumn (MkColumn "TEXT" false true false));
      ("__doc__", FOther) ].
End Example.

(** ** Query builder: configuration and rendering *)

(** [class QueryBuilder].  Every configuration method mutates the builder
    and returns it; here it returns the builder after the call. *)
Record QueryBuilder : Type := MkQueryBuilder {
  model_class : ModelClass;
  _select : string;
  _where : list string;
  _params : list Value;
  _joins : list string;
  _limit : option Z;
  _offset : option Z;
  _order_by : option string;
  _group_by : option string;
  _having : option string
}.

(** [Model.query], that is [QueryBuilder(cls)] with the defaults of
    [QueryBuilder.__init__] *)
Definition query (cls : ModelClass) : QueryBuilder :=
  MkQueryBuilder cls "*" [] [] [] None None None None None.

Definition select (self : QueryBuilder) (cols : list string) : QueryBuilder :=
  MkQueryBuilder (model_class self)
    (match cols with [] => "*" | _ => str_join ", " cols end)
    (_where self) (_params self) (_joins self) (_limit self) (_offset self)
    (_order_by self) (_group_by self) (_having self).

Definition where_ (self : QueryBuilder) (condition : string)
    (params : list Value) : QueryBuilder :=
  MkQueryBuilder (model_class self) (_select self)
    (_where self ++ [condition]) (_params self ++ params)
    (_joins self) (_limit self) (_offset self)
    (_order_by self) (_group_by self) (_having self).

Definition join (self : QueryBuilder) (table on join_type : string)
  : QueryBuilder :=
  MkQueryBuilder (model_class self) (_select self) (_where self) (_params self)
    (_joins self ++ [join_type +:+ " JOIN " +:+ table +:+ " ON " +:+ on])
    (_limit self) (_offset self)
    (_order_by self) (_group_by self) (_having self).

Definition left_join (self : QueryBuilder) (table on : string) : QueryBuilder :=
  join self table on "LEFT".

Definition right_join (self : QueryBuilder) (table on : string) : QueryBuilder :=
  join self table on "RIGHT".

Definition limit (self : QueryBuilder) (n : option Z) : QueryBuilder :=
  MkQueryBuilder (model_class self) (_select self) (_where self) (_params self)
    (_joins self) n (_offset self)
    (_order_by self) (_group_by self) (_having self).

Definition offset (self : QueryBuilder) (n : option Z) : QueryBuilder :=
  MkQueryBuilder (model_class self) (_select self) (_where self) (_params self)
    (_joins self) (_limit self) n
    (_order_by self) (_group_by self) (_having self).

Definition order_by (self : QueryBuilder) (column direction : string)
  : QueryBuilder :=
  MkQueryBuilder (model_class self) (_select self) (_where self) (_params self)
    (_joins self) (_limit self) (_offset self)
    (Some (column +:+ " " +:+ direction)) (_group_by self) (_having self).

Definition group_by (self : QueryBuilder) (column : option string)
  : QueryBuilder :=
  MkQueryBuilder (model_class self) (_select self) (_where self) (_params self)
    (_joins self) (_limit self) (_offset self)
    (_order_by self) column (_having self).

Definition having (self : QueryBuilder) (condition : option string)
    (params : list Value) : QueryBuilder :=
  MkQueryBuilder (model_class self) (_select self) (_where self)
    (_params self ++ params)
    (_joins self) (_limit self) (_offset self)
    (_order_by self) (_group_by self) condition.

(** The optional pieces of [_build_query], one per [if]. *)
Definition joins_part (js : list string) : string :=
  match js with [] => "" | _ => " " +:+ str_join " " js end.

Definition where_part (ws : list string) : string :=
  match ws with [] => "" | _ => " WHERE " +:+ str_join " AND " ws end.

Definition opt_part (kw : string) (o : option string) : string :=
  if truthy_opt o then kw +:+ fmt_opt o else "".

Definition int_part (kw : string) (o : option Z) : string :=
  match o with Some n => kw +:+ str_int n | None => "" end.

(** [QueryBuilder._build_query] *)
Definition _build_query (self : QueryBuilder) : string * list Value :=
  let sql := "SELECT " +:+ _select self +:+ " FROM " +:+
             fmt_opt (_table_name (model_class self)) in
  let sql := sql +:+ joins_part (_joins self) in
  let sql := sql +:+ where_part (_where self) in
  let sql := sql +:+ opt_part " GROUP BY " (_group_by self) in
  let sql := sql +:+ opt_part " HAVING " (_having self) in
  let sql := sql +:+ opt_part " ORDER BY " (_order_by self) in
  let sql := sql +:+ int_part " LIMIT " (_limit self) in
  let sql := sql +:+ int_part " OFFSET " (_offset self) in
  (sql, _params self).

(** The statement and the bound parameters of [QueryBuilder.count] *)
Definition count_query (self : QueryBuilder) : string * list Value :=
  let sql := "SELECT COUNT(*) FROM " +:+
             fmt_opt (_table_name (model_class self)) in
  match _where self with
  | [] => (sql, [])
  | _ => (sql +:+ " WHERE " +:+ str_join " AND " (_where self),
          take (length (_where self)) (_params self))
  end.

(** One configuration call, and a chain of them applied in order. *)
Inductive Call : Type :=
  | CSelect (cols : list string)
  | CWhere (condition : string) (params : list Value)
  | CJoin (table on join_type : string)
  | CLimit (n : option Z)
  | COffset (n : option Z)
  | COrderBy (column direction : string)
  | CGroupBy (column : option string)
  | CHaving (condition : option string) (params : list Value).

Definition call (self : QueryBuilder) (c : Call) : QueryBuilder :=
  match c with
  | CSelect cols => select self cols
  | CWhere cond ps => where_ self cond ps
  | CJoin t o jt => join self t o jt
  | CLimit n => limit self n
  | COffset n => offset self n
  | COrderBy c d => order_by self c d
  | CGroupBy c => group_by self c
  | CHaving c ps => having self c ps
  end.

Definition chain (self : QueryBuilder) (calls : list Call) : QueryBuilder :=
  fold_left call calls self.

(** The clause a call configures ([left_join] and [right_join] are
    [join] calls). *)
Inductive Kind : Type :=
  | KSelect | KWhere | KJoin | KLimit | KOffset | KOrderBy | KGroupBy | KHaving.

#[global] Instance Kind_eq_dec : EqDecision Kind.
Proof. solve_decision. Defined.

Definition kind (c : Call) : Kind :=
  match c with
  | CSelect _ => KSelect
  | CWhere _ _ => KWhere
  | CJoin _ _ _ => KJoin
  | CLimit _ => KLimit
  | COffset _ => KOffset
  | COrderBy _ _ => KOrderBy
  | CGroupBy _ => KGroupBy
  | CHaving _ _ => KHaving
  end.

(** The calls that extend [_params]. *)
Definition binds_params (c : Call) : bool :=
  match c with CWhere _ _ | CHaving _ _ => true | _ => false end.

(** The join clauses and the predicate fragments of a chain, in call
    order. *)
Definition join_texts (calls : list Call) : list string :=
  omap (fun c => match c with
                 | CJoin t o jt => Some (jt +:+ " JOIN " +:+ t +:+ " ON " +:+ o)
                 | _ => None
                 end) calls.

Definition where_texts (calls : list Call) : list string :=
  omap (fun c => match c with CWhere cond _ => Some cond | _ => None end) calls.

(** ** The storage boundary *)

(** A row as [dict(row)] presents it, and what the layer reads from a
    cursor: the rows it iterates and [lastrowid]. *)
Definition Row : Type := Dict.

Record Cursor : Type := MkCursor {
  cur_rows : list Row;
  lastrowid : Z
}.

(** Calls made on connections, in order.  Handles number the objects
    returned by [sqlite3.connect].  [EvExecute] records a call of
    [execute], whether it returned a cursor or raised; [EvCommit] a
    commit that went through and [EvCommitFailed] one that raised. *)
Inductive Event : Type :=
  | EvConnect (h : nat)
  | EvExecute (h : nat) (sql : string) (params : list Value)
  | EvCommit (h : nat)
  | EvCommitFailed (h : nat)
  | EvClose (h : nat).

#[global] Instance Event_eq_dec : EqDecision Event.
Proof. solve_decision. Defined.

(** The handles opened along a trace. *)
Definition connects (tr : list Event) : list nat :=
  omap (fun e => match e with EvConnect h => Some h | _ => None end) tr.

(** The class [Model] itself, the receiver of [Model.close_connection()]
    in [example.py].  Classes are identified by their name. *)
Definition Model : ModelClass :=
  MkModelClass "Model" None [].

(** ** What lies outside the repository

    [Store] is the state of the database file.  The sqlite3 module
    answers three calls: [connect], which returns a connection or
    raises; [execute(sql, params)] on an open connection, which gives the
    new state and a cursor, or raises; [commit()] on an open connection,
    which gives the new state or raises.

    Two behaviours of the interpreter are parameters as well.  The
    order in which a [set] of strings is iterated follows the hashes of
    its elements: [set_iter] is any enumeration of the set, each element
    once.  ([save] iterates the dirty set twice without changing it in
    between, and meets the same order both times.)  [unicode_lower] is
    [str.lower] on strings that are not ASCII. *)
Record Env (Store : Type) : Type := MkEnv {
  connect : Store -> bool;
  execute : Store -> string -> list Value -> option (Store * Cursor);
  commit : Store -> option Store;
  set_iter : gset string -> list string;
  set_iter_perm : forall s, set_iter s ≡ₚ elements s;
  unicode_lower : string -> string
}.
Arguments MkEnv {Store}.
Arguments connect {Store}.
Arguments execute {Store}.
Arguments commit {Store}.
Arguments set_iter {Store}.
Arguments set_iter_perm {Store}.
Arguments unicode_lower {Store}.

Section Engine.

Context {Store : Type}.
Variable env : Env Store.

(** [s.lower()] *)
Definition str_lower (s : string) : string :=
  if ascii_only s then lower s else unicode_lower env s.

(** Process state.  [class_conn] maps a class name to the handle bound
    to its own [_conn] attribute. *)
Record World : Type := MkWorld {
  class_conn : gmap string nat;
  next_handle : nat;
  open_handles : list nat;
  store : Store;
  trace : list Event
}.

(** Computations over a state [S] that may raise. *)
Definition M (S A : Type) : Type := S -> Outcome A * S.

Definition ret {S A} (a : A) : M S A := fun s => (Ok a, s).
Definition raise {S A} (e : Exn) : M S A := fun s => (Raise e, s).
Definition bind {S A B} (m : M S A) (k : A -> M S B) : M S B :=
  fun s => match m s with
           | (Ok a, s') => k a s'
           | (Raise e, s') => (Raise e, s')
           end.
Definition of_outcome {S A} (o : Outcome A) : M S A := fun s => (o, s).

Notation "'let*' x ':=' m 'in' k" := (bind m (fun x => k))
  (at level 10, x name, m at level 100, k at level 200).
Notation "m '>>' k" := (bind m (fun _ => k))
  (at level 90, right associativity).

(** The world after a call [e] on a connection that left the store in
    state [st]. *)
Definition answered (st : Store) (e : Event) (w : World) : World :=
  MkWorld (class_conn w) (next_handle w) (open_handles w) st
          (trace w ++ [e]).

Definition log (e : Event) (w : World) : World :=
  answered (store w) e w.

(** The connection behind handle [h] has not been closed. *)
Definition is_open (h : nat) (w : World) : bool :=
  bool_decide (h ∈ open_handles w).

(** What sqlite3 answers to [execute(sql, params)] on the connection
    behind [h]: a closed connection raises whatever the statement. *)
Definition execute_on (h : nat) (w : World) (sql : string)
    (params : list Value) : option (Store * Cursor) :=
  if is_open h w then execute env (store w) sql params else None.

(** [conn.execute(sql, params)] *)
Definition conn_execute (h : nat) (sql : string) (params : list Value)
  : M World Cursor :=
  fun w =>
    match execute_on h w sql params with
    | Some (st, cur) => (Ok cur, answered st (EvExecute h sql params) w)
    | None => (Raise EngineError, log (EvExecute h sql params) w)
    end.

(** [conn.cursor()]: a closed connection raises; nothing is sent. *)
Definition conn_cursor (h : nat) : M World unit :=
  fun w => if is_open h w then (Ok tt, w) else (Raise EngineError, w).

(** [conn.commit()] *)
Definition conn_commit (h : nat) : M World unit :=
  fun w =>
    match (if is_open h w then commit env (store w) else None) with
    | Some st => (Ok tt, answered st (EvCommit h) w)
    | None => (Raise EngineError, log (EvCommitFailed h) w)
    end.

(** [hasattr(cls, '_conn')]: the attribute is looked up on [cls] and
    then on its base [Model]. *)
Definition hasattr_conn (cls : ModelClass) (w : World) : option nat :=
  match class_conn w !! cls_name cls with
  | Some h => Some h
  | None => class_conn w !! "Model"
  end.

(** [sqlite3.connect(...)] when it returns, followed by
    [cls._conn = ...]: the new handle is bound on the class the method
    was called on. *)
Definition connect_and_bind (cls : ModelClass) (w : World) : nat * World :=
  let h := next_handle w in
  (h, MkWorld (<[cls_name cls := h]> (class_conn w)) (S h)
              (h :: open_handles w) (store w) (trace w ++ [EvConnect h])).

(** [Model.get_connection]: when [sqlite3.connect] raises, nothing has
    been bound. *)
Definition get_connection (cls : ModelClass) : M World nat :=
  fun w =>
    match hasattr_conn cls w with
    | Some h => (Ok h, w)
    | None =>
        if connect env (store w) then
          let '(h, w1) := connect_and_bind cls w in
          (conn_execute h "PRAGMA foreign_keys = ON" [] >> ret h) w1
        else (Raise EngineError, w)
    end.

(** [Model.close_connection]: [delattr(cls, '_conn')] raises when the
    attribute is only inherited. *)
Definition close_connection (cls : ModelClass) : M World unit :=
  fun w =>
    match hasattr_conn cls w with
    | None => (Ok tt, w)
    | Some h =>
        let w1 :=
          MkWorld (class_conn w) (next_handle w)
                  (filter (fun h' => h' <> h) (open_handles w)) (store w)
                  (trace w ++ [EvClose h]) in
        match class_conn w !! cls_name cls with
        | Some _ =>
            (Ok tt,
             MkWorld (delete (cls_name cls) (class_conn w1)) (next_handle w1)
                     (open_handles w1) (store w1) (trace w1))
        | None => (Raise (AttributeError "_conn"), w1)
        end
    end.

(** [cls] has [_conn] in its own [__dict__]. *)
Definition has_own_conn (cls : ModelClass) (w : World) : bool :=
  match class_conn w !! cls_name cls with Some _ => true | None => false end.

(** [Model.create_table] *)
Definition create_table (cls : ModelClass) : M World unit :=
  fun w =>
    (let* sql := of_outcome (create_table_sql cls (has_own_conn cls w)) in
     let* conn := get_connection cls in
     conn_execute conn sql [] >>
     conn_commit conn) w.

(** ** Record instances *)

(** The instance [__dict__]: the three slots bound by [__init__], and
    any other underscore-prefixed attribute bound later ([_extra]). *)
Record Instance : Type := MkInstance {
  inst_class : ModelClass;
  _data : Dict;
  _modified : gset string;
  _relations : Dict;
  _extra : Dict
}.

(** [Model.__init__], with the keyword arguments in call order *)
Definition new (cls : ModelClass) (kwargs : Dict) : Instance :=
  MkInstance cls kwargs ∅ [] [].

(** [Model.from_row]: [cls()], then [_data = dict(row)] (an underscore
    name, bound directly) and [_modified.clear()]. *)
Definition from_row (cls : ModelClass) (row : Row) : Instance :=
  let instance := new cls [] in
  MkInstance cls row ∅ (_relations instance) (_extra instance).

Definition slot_names : list string := ["_data"; "_modified"; "_relations"].

(** The two branches of [Model.__setattr__] for a name that does not
    start with an underscore. *)
Definition setattr_public (self : Instance) (name : string) (value : Value)
  : Instance :=
  if dict_mem (_relations self) name then
    MkInstance (inst_class self) (_data self) (_modified self)
               (dict_set (_relations self) name value) (_extra self)
  else
    MkInstance (inst_class self) (dict_set (_data self) name value)
               ({[name]} ∪ _modified self) (_relations self) (_extra self).

(** The names that [object] manages through descriptors of its own:
    [object.__setattr__] does not bind them in the instance
    [__dict__]. *)
Definition object_names : list string :=
  ["__class__"; "__dict__"; "__weakref__"].

(** [Model.__setattr__] for a value.  An underscore name goes to
    [object.__setattr__], which binds it in the instance [__dict__].
    Two cases are left out, as [None].  When the name is one of the
    three slots, the slot is rebound to a plain value and the object is
    no longer an instance as [Instance] describes one.  ([__init__] and
    [from_row], which bind the slots to containers, are written as
    record updates above.)  When the name is one of [object_names],
    nothing is bound. *)
Definition Model_setattr (self : Instance) (name : string) (value : Value)
  : option Instance :=
  if startswith_underscore name then
    if bool_decide (name ∈ slot_names ++ object_names) then None
    else
      Some (MkInstance (inst_class self) (_data self) (_modified self)
                       (_relations self) (dict_set (_extra self) name value))
  else Some (setattr_public self name value).

(** [Model.__getattr__], called when ordinary lookup fails *)
Definition Model_getattr (self : Instance) (name : string) : Outcome Value :=
  match dict_get (_data self) name with
  | Some v => Ok v
  | None =>
      match dict_get (_relations self) name with
      | Some v => Ok v
      | None => Raise (AttributeError name)
      end
  end.

(** [self._table_name]: an instance attribute of that name shadows the
    class attribute. *)
Definition self_table_name (self : Instance) : Value :=
  match dict_get (_extra self) "_table_name" with
  | Some v => v
  | None =>
      match _table_name (inst_class self) with
      | Some t => VStr t
      | None => VNone
      end
  end.

(** [self._data.get(pk)] *)
Definition data_get (self : Instance) (k : string) : Value :=
  default VNone (dict_get (_data self) k).

Definition set_data (self : Instance) (d : Dict) : Instance :=
  MkInstance (inst_class self) d (_modified self) (_relations self)
             (_extra self).

Definition clear_modified (self : Instance) : Instance :=
  MkInstance (inst_class self) (_data self) ∅ (_relations self)
             (_extra self).

(** Every dirty name is a key of the values mapping. *)
Definition dirty_in_values (self : Instance) : bool :=
  forallb (dict_mem (_data self)) (elements (_modified self)).

(** Instance methods run over the instance and the process state. *)
Definition liftW {A} (m : M World A) : M (Instance * World) A :=
  fun s => let '(r, w) := m s.2 in (r, (s.1, w)).

Definition get_self : M (Instance * World) Instance :=
  fun s => (Ok s.1, s).

Definition modify_self (f : Instance -> Instance) : M (Instance * World) unit :=
  fun s => (Ok tt, (f s.1, s.2)).

Definition update_sql (table pk : string) (cols : list string) : string :=
  "UPDATE " +:+ table +:+ " SET " +:+
  str_join ", " ((fun col => col +:+ " = ?") <$> cols) +:+
  " WHERE " +:+ pk +:+ " = ?".

Definition insert_sql (table : string) (cols : list string) : string :=
  "INSERT INTO " +:+ table +:+ " (" +:+ str_join ", " cols +:+ ") VALUES (" +:+
  str_join ", " (replicate (length cols) "?") +:+ ")".

(** [Model.save] *)
Definition save : M (Instance * World) unit :=
  let* self := get_self in
  let cls := inst_class self in
  let table := self_table_name self in
  if negb (py_truthy table) then
    raise (ValueError "Nombre de tabla no definido")
  else
    let* conn := liftW (get_connection cls) in
    liftW (conn_cursor conn) >>
    let pk := get_primary_key cls in
    let pk_value := data_get self pk in
    (if is_not_None pk_value then
       let cols := set_iter env (_modified self) in
       let* values := of_outcome (dict_getitems (_data self) cols) in
       liftW (conn_execute conn
                (update_sql (py_str table) pk cols)
                (values ++ [pk_value])) >>
       ret tt
     else
       let cols := dict_keys (_data self) in
       let* values := of_outcome (dict_getitems (_data self) cols) in
       let* cursor := liftW (conn_execute conn
                          (insert_sql (py_str table) cols)
                          values) in
       if truthy_str pk then
         modify_self (fun self =>
           set_data self (dict_set (_data self) pk (VInt (lastrowid cursor))))
       else ret tt) >>
    liftW (conn_commit conn) >>
    modify_self clear_modified.

Definition delete_sql (table pk : string) : string :=
  "DELETE FROM " +:+ table +:+ " WHERE " +:+ pk +:+ " = ?".

(** [Model.delete] *)
Definition delete : M (Instance * World) unit :=
  let* self := get_self in
  let cls := inst_class self in
  let table := self_table_name self in
  if negb (py_truthy table) then
    raise (ValueError "Nombre de tabla no definido")
  else
    let pk := get_primary_key cls in
    let pk_value := data_get self pk in
    if negb (is_not_None pk_value) then
      raise (ValueError "No se puede eliminar un registro sin clave primaria")
    else
      let* conn := liftW (get_connection cls) in
      liftW (conn_execute conn (delete_sql (py_str table) pk)
                          [pk_value]) >>
      liftW (conn_commit conn).

(** One operation of the layer on an instance: an attribute write that
    [Model_setattr] covers, [save] or [delete]. *)
Inductive step : Instance * World -> Instance * World -> Prop :=
  | step_setattr self self' w name value :
      Model_setattr self name value = Some self' ->
      step (self, w) (self', w)
  | step_save self w : step (self, w) (save (self, w)).2
  | step_delete self w : step (self, w) (delete (self, w)).2.

(** ** Query builder: execution *)

(** [QueryBuilder.all] *)
Definition all (self : QueryBuilder) : M World (list Instance) :=
  let '(sql, params) := _build_query self in
  let* conn := get_connection (model_class self) in
  let* cursor := conn_execute conn sql params in
  ret (from_row (model_class self) <$> cur_rows cursor).

(** [QueryBuilder.first]: the builder keeps [_limit = 1] afterwards. *)
Definition first (self : QueryBuilder)
  : M World (option Instance) * QueryBuilder :=
  let self := limit self (Some 1) in
  (let* results := all self in ret (head results), self).

(** [cursor.fetchone()[0]] *)
Definition fetchone_0 (cursor : Cursor) : Outcome Value :=
  match cur_rows cursor with
  | [] => Raise TypeError
  | [] :: _ => Raise IndexError
  | ((_, v) :: _) :: _ => Ok v
  end.

(** [QueryBuilder.count] *)
Definition count (self : QueryBuilder) : M World Value :=
  let '(sql, params) := count_query self in
  let* conn := get_connection (model_class self) in
  let* cursor := conn_execute conn sql params in
  of_outcome (fetchone_0 cursor).

(** [QueryBuilder.exists] *)
Definition exists_ (self : QueryBuilder) : M World bool :=
  let* n := count self in
  match n with
  | VInt n => ret (Z.ltb 0 n)
  | _ => raise TypeError
  end.

(** ** Relation helpers *)

(** The name used when [foreign_key] is not given:
    [f"{table_name.lower()}_id"]. *)
Definition default_fk (table_name : Value) : Outcome string :=
  match table_name with
  | VStr t => Ok (str_lower t +:+ "_id")
  | _ => Raise (AttributeError "lower")
  end.

Definition resolve_fk (table_name : Value) (foreign_key : option string)
  : Outcome string :=
  match foreign_key with
  | Some fk => Ok fk
  | None => default_fk table_name
  end.

Definition cls_table_name (cls : ModelClass) : Value :=
  match _table_name cls with Some t => VStr t | None => VNone end.

(** [Model.belongs_to] *)
Definition belongs_to (self : Instance) (target : ModelClass)
    (foreign_key : option string) : M World (option Instance) :=
  let* foreign_key :=
    of_outcome (resolve_fk (cls_table_name target) foreign_key) in
  match dict_get (_data self) foreign_key with
  | None => ret None
  | Some v =>
      (first (where_ (query target) (get_primary_key target +:+ " = ?") [v])).1
  end.

(** [Model.has_many] *)
Definition has_many (self : Instance) (target : ModelClass)
    (foreign_key : option string) : M World (list Instance) :=
  let* foreign_key :=
    of_outcome (resolve_fk (self_table_name self) foreign_key) in
  match dict_get (_data self) (get_primary_key (inst_class self)) with
  | None => raise (KeyError (get_primary_key (inst_class self)))
  | Some v => all (where_ (query target) (foreign_key +:+ " = ?") [v])
  end.

End Engine.

(** ** Attribute access on an instance

    [self.name] first goes through the interpreter's ordinary lookup: the
    instance [__dict__], then the namespaces of the class and of its
    bases.  Only when that finds nothing is [Model.__getattr__] called. *)

(** [cls.__dict__.get(name)] *)
Fixpoint class_lookup (items : list (string * Field)) (name : string)
  : option Field :=
  match items with
  | [] => None
  | (n, f) :: rest => if decide (n = name) then Some f else class_lookup rest name
  end.

(** The attribute is declared on the record type: bound in the class body
    to a [Column] or a [ForeignKey]. *)
Definition declared (cls : ModelClass) (name : string) : bool :=
  match class_lookup (cls_dict cls) name with
  | Some (FColumn _) | Some (FForeignKey _ _) => true
  | _ => false
  end.

(** The names bound in the body of [class Model]. *)
Definition Model_namespace : list string :=
  [ "_table_name"; "__init__"; "__getattr__"; "__setattr__";
    "get_connection"; "close_connection"; "create_table"; "get_primary_key";
    "save"; "delete"; "from_row"; "belongs_to"; "has_many"; "query" ].

(** What an attribute read evaluates to. *)
Inductive Attr : Type :=
  | AValue (v : Value)
  | ASlot (name : string)
  | AClassAttr (f : Field)
  | ABase (name : string).

Section AttributeLookup.

(** The names that resolve on the bases beyond the body of [Model]:
    the attributes of [object], and [_conn] once it is bound. *)
Variable builtin : string -> bool.

Definition ordinary_lookup (self : Instance) (name : string) : option Attr :=
  if bool_decide (name ∈ slot_names) then Some (ASlot name)
  else
    match dict_get (_extra self) name with
    | Some v => Some (AValue v)
    | None =>
        match class_lookup (cls_dict (inst_class self)) name with
        | Some f => Some (AClassAttr f)
        | None =>
            if (bool_decide (name ∈ Model_namespace) || builtin name)%bool
            then Some (ABase name)
            else None
        end
    end.

(** [self.name] *)
Definition getattr (self : Instance) (name : string) : Outcome Attr :=
  match ordinary_lookup self name with
  | Some a => Ok a
  | None =>
      match Model_getattr self name with
      | Ok v => Ok (AValue v)
      | Raise e => Raise e
      end
  end.

End AttributeLookup.

(** ** Sample data *)

(** An engine for running the definitions: the store counts the rows
    inserted so far; an [INSERT] adds one and reports its number as
    [lastrowid]; a [SELECT COUNT] answers with that count, any other
    [SELECT] with one row per inserted row, holding its number; every
    other statement is accepted and leaves the store alone. *)
Definition sample_execute (st : Z) (sql : string) (params : list Value)
  : option (Z * Cursor) :=
  if String.prefix "INSERT" sql then Some (st + 1, MkCursor [] (st + 1))
  else if String.prefix "SELECT COUNT" sql
       then Some (st, MkCursor [[("COUNT(*)", VInt st)]] 0)
  else if String.prefix "SELECT" sql
       then Some (st, MkCursor ((fun i => [("id", VInt (Z.of_nat i))]) <$>
                                seq 1 (Z.to_nat st)) 0)
  else Some (st, MkCursor [] 0).

(** An environment around an [execute]: connecting and committing
    succeed, a set is iterated in the order of [elements], and
    [str.lower] leaves the strings beyond ASCII alone. *)
Definition env_of {Store : Type}
    (exec : Store -> string -> list Value -> option (Store * Cursor))
  : Env Store :=
  MkEnv (fun _ => true) exec Some elements
        (fun s => Permutation_refl (elements s)) (fun s => s).

Definition sample_env : Env Z := env_of sample_execute.

Definition world0 : @World Z := MkWorld ∅ 0%nat [] 0 [].

(** An engine that accepts the PRAGMA of a new connection and refuses
    every other statement. *)
Definition refusing_execute (st : Z) (sql : string) (params : list Value)
  : option (Z * Cursor) :=
  if String.prefix "PRAGMA" sql then Some (st, MkCursor [] 0) else None.

Definition refusing_env : Env Z := env_of refusing_execute.

(** An engine that refuses every statement, the PRAGMA included. *)
Definition silent_env : Env Z := env_of (fun _ _ _ => None).

(** [s] occurs in [text]. *)
Definition contains (s text : string) : bool :=
  match String.index 0 s text with Some _ => true | None => false end.

(** An engine that, like SQLite, has no UPDATE with an empty SET list in
    its grammar: a statement in which [SET] is followed by [WHERE] is
    refused as a syntax error.  Otherwise it is [sample_execute]. *)
Definition strict_execute (st : Z) (sql : string) (params : list Value)
  : option (Z * Cursor) :=
  if contains " SET  WHERE " sql then None else sample_execute st sql params.

Definition strict_env : Env Z := env_of strict_execute.

(** The sample engine under an interpreter that iterates a set in the
    opposite order. *)
Definition reversed_env : Env Z :=
  MkEnv (fun _ => true) sample_execute Some (fun s => reverse (elements s))
        (fun s => reverse_Permutation (elements s)) (fun s => s).

(** The sample engine when every commit raises, and when the database
    file cannot be opened. *)
Definition failing_commit_env : Env Z :=
  MkEnv (fun _ => true) sample_execute (fun _ => None) elements
        (fun s => Permutation_refl (elements s)) (fun s => s).

Definition no_connect_env : Env Z :=
  MkEnv (fun _ => false) sample_execute Some elements
        (fun s => Permutation_refl (elements s)) (fun s => s).




(** A fresh process over a database that already holds two rows. *)
Definition world_two_rows : @World Z := MkWorld ∅ 0%nat [] 2 [].

(** A department loaded as row 1 whose [budget] was then assigned, and
    one built from keyword arguments and not saved yet. *)
Definition dept_loaded : Instance :=
  setattr_public
    (from_row Example.Department
       [("id", VInt 1); ("name", VStr "IT"); ("budget", VInt 100000)])
    "budget" (VInt 90000).

Definition dept_new : Instance :=
  new Example.Department [("name", VStr "HR"); ("budget", VInt 80000)].

(** The loaded department after a second assignment, to [name]. *)
Definition dept_two : Instance :=
  setattr_public dept_loaded "name" (VStr "Ops").

(** An employee and a department as a query loads them. *)
Definition emp_loaded : Instance :=
  from_row Example.Employee
    [("id", VInt 1); ("name", VStr "Ana"); ("department_id", VInt 1)].

Definition dept_row : Instance :=
  from_row Example.Department [("id", VInt 1); ("name", VStr "IT")].

(** The attributes every object inherits from [object] have names such
    as [__class__] and [__dict__]. *)
Definition dunder (name : string) : bool := String.prefix "__" name.

(** Record types whose class body starts with a docstring: [__doc__] is
    then bound before the body's own names, and the last item of the
    namespace is the last attribute declared (CPython up to 3.12; from
    3.13 on [__static_attributes__] comes last, and such a class behaves
    like one without a docstring).

    [[
    class Owner(Model):
        "owners"
        _table_name = 'owners'
        id = Column('INTEGER', primary_key=True)

    class Link(Model):
        "links"
        _table_name = 'links'
        id = Column('INTEGER', primary_key=True)
        a_id = ForeignKey(Owner, nullable=True)
        b_id = ForeignKey(Owner)

    class Bare(Model):
        _table_name = 'bare'

    class Team(Model):
        _table_name = 'Teams'
        id = Column('INTEGER', primary_key=True)
    ]] *)
Module Sample.
Definition Owner : ModelClass :=
  MkModelClass "Owner" (Some "owners")
    [ ("__module__", FOther); ("__doc__", FOther); ("_table_name", FOther);
      ("id", FColumn (MkColumn "INTEGER" true true false)) ].

Definition Link : ModelClass :=
  MkModelClass "Link" (Some "links")
    [ ("__module__", FOther); ("__doc__", FOther); ("_table_name", FOther);
      ("id", FColumn (MkColumn "INTEGER" true true false));
      ("a_id", FForeignKey Owner true);
      ("b_id", FForeignKey Owner false) ].


Definition Team : ModelClass :=
  MkModelClass "Team" (Some "Teams")
    [ ("__module__", FOther); ("_table_name", FOther);
      ("id", FColumn (MkColumn "INTEGER" true true false));
      ("__doc__", FOther) ].
End Sample.

(** ** Closed forms and observers used in the properties *)

(** What one item of the class namespace contributes to each accumulator
    of the first loop of [create_table]. *)
Definition column_def (item : string * Field) : option string :=
  match item with
  | (name, FColumn c) =>
      Some (name +:+ " " +:+ sql_type c +:+ null_clause (nullable c) +:+
            (if unique c then " UNIQUE" else ""))
  | (name, FForeignKey _ n) =>
      Some (name +:+ " " +:+ "INTEGER" +:+ null_clause n)
  | (_, FOther) => None
  end.

Definition pk_column (item : string * Field) : option string :=
  match item with
  | (name, FColumn c) => if primary_key c then Some name else None
  | _ => None
  end.

Definition unique_column (item : string * Field) : option string :=
  match item with
  | (name, FColumn c) =>
      if (unique c && negb (primary_key c))%bool then Some name else None
  | _ => None
  end.

Definition fk_column (item : string * Field) : option (string * ModelClass) :=
  match item with
  | (name, FForeignKey m _) => Some (name, m)
  | _ => None
  end.

(** Everything of a builder that [_build_query] prints: all fields but
    the bound parameters. *)
Definition clauses (b : QueryBuilder)
  : ModelClass * string * list string * list string * option Z * option Z *
    option string * option string * option string :=
  (model_class b, _select b, _where b, _joins b, _limit b, _offset b,
   _order_by b, _group_by b, _having b).

(** The call with its parameters taken away, and the parameters alone. *)
Definition erase_params (c : Call) : Call :=
  match c with
  | CWhere cond _ => CWhere cond []
  | CHaving cond _ => CHaving cond []
  | _ => c
  end.

Definition call_params (c : Call) : list Value :=
  match c with
  | CWhere _ ps | CHaving _ ps => ps
  | _ => []
  end.

(** A call that suits the parameter slice of [count]: a [where] with
    exactly one parameter, a [having] with none, or any other call. *)
Definition one_param_per_where (c : Call) : bool :=
  match c with
  | CWhere _ ps => bool_decide (length ps = 1%nat)
  | CHaving _ ps => bool_decide (ps = [])
  | _ => true
  end.

(** The clauses that a call overwrites instead of extending. *)
Definition single_valued (k : Kind) : bool :=
  match k with KWhere | KJoin => false | _ => true end.

(** The handles on which a commit went through along a trace. *)
Definition commits (tr : list Event) : list nat :=
  omap (fun e => match e with EvCommit h => Some h | _ => None end) tr.

(** * Properties *)

(** ** Strings and dictionaries *)

Lemma append_cons (c : ascii) (s t : string) :
  String c s +:+ t = String c (s +:+ t).
Proof. reflexivity. Qed.

Lemma append_nil_r (s : string) : s +:+ "" = s.
Proof. induction s as [|c s IH]; [done | by rewrite append_cons, IH]. Qed.

Lemma append_assoc (s1 s2 s3 : string) :
  (s1 +:+ s2) +:+ s3 = s1 +:+ (s2 +:+ s3).
Proof. induction s1 as [|c s1 IH]; [done | by rewrite !append_cons, IH]. Qed.

Lemma dict_get_set_eq (d : Dict) (k : string) (v : Value) :
  dict_get (dict_set d k v) k = Some v.
Proof.
  induction d as [|[k' v'] d IH]; simpl.
  - by rewrite decide_True.
  - destruct (decide (k' = k)) as [->|Hne]; simpl.
    + by rewrite decide_True.
    + by rewrite decide_False.
Qed.

Lemma dict_get_set_ne (d : Dict) (k k' : string) (v : Value) :
  k ≠ k' → dict_get (dict_set d k v) k' = dict_get d k'.
Proof.
  intros Hne. induction d as [|[k0 v0] d IH]; simpl.
  - by rewrite decide_False.
  - destruct (decide (k0 = k)) as [->|Hne0]; simpl.
    + by rewrite !decide_False.
    + destruct (decide (k0 = k')); [done | apply IH].
Qed.

Lemma dict_get_keys (d : Dict) (k : string) :
  k ∈ dict_keys d → is_Some (dict_get d k).
Proof.
  induction d as [|[k' v'] d IH]; simpl.
  - intros H. by apply elem_of_nil in H.
  - intros H. destruct (decide (k' = k)) as [->|Hne]; [by eexists |].
    apply IH. apply elem_of_cons in H as [H|H]; [congruence | done].
Qed.

(** ** Schema compiler *)

Example Department_sql :
  create_table_sql Example.Department false =
  Ok "CREATE TABLE IF NOT EXISTS departments (id INTEGER NULL, name TEXT NOT NULL UNIQUE, budget REAL NULL, PRIMARY KEY (id), UNIQUE(name))".
Proof. reflexivity. Qed.

(** Every clause of the second loop is built from the one value that
    [field.nullable] has after the first loop. *)
Lemma fk_clauses_shared_policy field fks cs :
  fk_clauses field fks = Ok cs →
  fks = [] ∧ cs = [] ∨
  ∃ b, field_nullable field = Ok b ∧ cs = fk_clause b <$> fks.
Proof.
  revert cs. induction fks as [|fk fks IH]; simpl; intros cs H.
  - left. by inversion H.
  - right. destruct (field_nullable field) as [b|e] eqn:Hb; [|done].
    exists b. split; [done |].
    destruct (fk_clauses field fks) as [cs'|e] eqn:Hcs; [|done].
    inversion H; subst. simpl. f_equal.
    destruct (IH cs' eq_refl) as [[-> ->] | (b' & Hb' & ->)]; [done |].
    by simplify_eq.
Qed.

(** C1, evaluated on the code: the ON DELETE policy of a foreign-key
    clause is not taken from the relation's own [nullable] flag.
    [Employee] of [example.py], whose namespace ends with the binding of
    [__doc__], gets no statement at all, [field.nullable] raising; [Link],
    whose last attribute is the non-nullable [b_id], gets CASCADE for the
    nullable relation [a_id] as well, and no statement either once
    [_conn] is bound on it. *)
Theorem create_table_fk_policy_from_leaked_field :
  create_table_sql Example.Employee false = Raise (AttributeError "nullable") ∧
  create_table_sql Sample.Link false =
    Ok "CREATE TABLE IF NOT EXISTS links (id INTEGER NULL, a_id INTEGER NULL, b_id INTEGER NOT NULL, PRIMARY KEY (id), FOREIGN KEY(a_id) REFERENCES owners(id) ON DELETE CASCADE, FOREIGN KEY(b_id) REFERENCES owners(id) ON DELETE CASCADE)" ∧
  create_table_sql Sample.Link true = Raise (AttributeError "nullable").
Proof. repeat split; reflexivity. Qed.

(** ** Connections *)

Section ConnectionFacts.

Context {Store : Type}.
Variable env : Env Store.

Lemma execute_on_Some h (w : @World Store) sql params r :
  execute_on env h w sql params = Some r →
  is_open h w = true ∧ execute env (store w) sql params = Some r.
Proof. unfold execute_on. by destruct (is_open h w). Qed.

Lemma execute_on_open h (w : @World Store) sql params :
  is_open h w = true →
  execute_on env h w sql params = execute env (store w) sql params.
Proof. unfold execute_on. by intros ->. Qed.

Lemma conn_execute_Raise h sql params (w w' : @World Store) e :
  conn_execute env h sql params w = (Raise e, w') →
  execute_on env h w sql params = None ∧ e = EngineError ∧
  w' = log (EvExecute h sql params) w.
Proof.
  unfold conn_execute.
  destruct (execute_on env h w sql params) as [[st c]|]; [done |].
  by intros [= <- <-].
Qed.

(** [commit] on a connection that is open. *)
Lemma conn_commit_open h (w : @World Store) :
  is_open h w = true →
  conn_commit env h w =
    match commit env (store w) with
    | Some st => (Ok tt, answered st (EvCommit h) w)
    | None => (Raise EngineError, log (EvCommitFailed h) w)
    end.
Proof. unfold conn_commit. by intros ->. Qed.


(** A bound [_conn] is returned as it is: nothing is opened, nothing
    is sent. *)
Lemma get_connection_bound cls (w : @World Store) h :
  hasattr_conn cls w = Some h → get_connection env cls w = (Ok h, w).
Proof. unfold get_connection. by intros ->. Qed.

(** Without a bound [_conn], and when [sqlite3.connect] returns, a new
    handle is opened and bound on the class that received the call,
    whatever the engine answers to the PRAGMA. *)
Lemma get_connection_unbound cls (w : @World Store) :
  hasattr_conn cls w = None → connect env (store w) = true →
  let w' := (get_connection env cls w).2 in
  class_conn w' = <[cls_name cls := next_handle w]> (class_conn w) ∧
  open_handles w' = next_handle w :: open_handles w ∧
  next_handle w' = S (next_handle w) ∧
  trace w' =
    trace w ++ [EvConnect (next_handle w);
                EvExecute (next_handle w) "PRAGMA foreign_keys = ON" []].
Proof.
  intros Hno Hconn. unfold get_connection. rewrite Hno, Hconn. simpl.
  unfold bind, conn_execute, execute_on, is_open, connect_and_bind, log, ret;
    simpl.
  rewrite bool_decide_eq_true_2 by left.
  destruct (execute env (store w) "PRAGMA foreign_keys = ON" []) as [[st c]|];
    simpl; by rewrite <- app_assoc.
Qed.

(** When [sqlite3.connect] raises, the call raises and nothing has
    changed. *)
Lemma get_connection_refused cls (w : @World Store) :
  hasattr_conn cls w = None → connect env (store w) = false →
  get_connection env cls w = (Raise EngineError, w).
Proof. intros Hno Hconn. unfold get_connection. by rewrite Hno, Hconn. Qed.

(** After a successful call the handle is bound for the class. *)
Lemma get_connection_Ok cls (w w1 : @World Store) h :
  get_connection env cls w = (Ok h, w1) → hasattr_conn cls w1 = Some h.
Proof.
  unfold get_connection.
  destruct (hasattr_conn cls w) as [h'|] eqn:Hh.
  - by intros [= <- <-].
  - destruct (connect env (store w)); [|done].
    unfold bind, conn_execute, connect_and_bind, log, ret; simpl.
    destruct (execute_on env _ _ "PRAGMA foreign_keys = ON" []) as [[st c]|];
      [|done].
    intros [= <- <-]. unfold hasattr_conn; simpl.
    by rewrite lookup_insert_eq.
Qed.

(** A call that found nothing in reach and succeeded returns a handle
    that is open. *)
Lemma get_connection_fresh_open cls (w w1 : @World Store) h :
  hasattr_conn cls w = None →
  get_connection env cls w = (Ok h, w1) → is_open h w1 = true.
Proof.
  intros Hno Hc.
  destruct (connect env (store w)) eqn:Hconn.
  - destruct (get_connection_unbound cls w Hno Hconn) as (Hcc & Ho & _).
    pose proof (get_connection_Ok cls w w1 h Hc) as Hb.
    rewrite Hc in Hcc, Ho. simpl in Hcc, Ho.
    unfold hasattr_conn in Hb. rewrite Hcc, lookup_insert_eq in Hb.
    injection Hb as <-. unfold is_open. rewrite Ho.
    apply bool_decide_eq_true_2. left.
  - by rewrite (get_connection_refused cls w Hno Hconn) in Hc.
Qed.

(** Two record types, neither of which has [_conn] in reach: the second
    call opens a second handle while the first is still open. *)
Lemma get_connection_second_class cls1 cls2 (w : @World Store) :
  (∀ st, connect env st = true) →
  class_conn w = ∅ →
  cls_name cls1 ≠ cls_name cls2 → cls_name cls1 ≠ "Model" →
  let w1 := (get_connection env cls1 w).2 in
  let w2 := (get_connection env cls2 w1).2 in
  open_handles w2 = S (next_handle w) :: next_handle w :: open_handles w.
Proof.
  intros Hconn Hempty Hne HneM w1 w2.
  assert (hasattr_conn cls1 w = None) as H1.
  { unfold hasattr_conn. by rewrite Hempty, !lookup_empty. }
  destruct (get_connection_unbound cls1 w H1 (Hconn _)) as (Hc1 & Ho1 & Hn1 & _).
  fold w1 in Hc1, Ho1, Hn1.
  assert (hasattr_conn cls2 w1 = None) as H2.
  { unfold hasattr_conn. rewrite Hc1, Hempty.
    rewrite !lookup_insert_ne by done. by rewrite !lookup_empty. }
  destruct (get_connection_unbound cls2 w1 H2 (Hconn _)) as (_ & Ho2 & _).
  fold w2 in Ho2. by rewrite Ho2, Ho1, Hn1.
Qed.

End ConnectionFacts.

(** C9, evaluated on the code: the connection is bound on the class that
    asked for it, so each record type opens its own.  After
    [Department.create_table()] and [Project.create_table()] two handles
    are open, one per class, and [Model.close_connection()], the last
    line of [example.py], finds no [_conn] on [Model] and closes
    neither. *)
Theorem get_connection_opens_one_per_record_type :
  let w1 := (create_table sample_env Example.Department world0).2 in
  let w2 := (create_table sample_env Example.Project w1).2 in
  let w3 := (close_connection Model w2).2 in
  (create_table sample_env Example.Department world0).1 = Ok tt ∧
  (create_table sample_env Example.Project w1).1 = Ok tt ∧
  open_handles w1 = [0%nat] ∧
  open_handles w2 = [1%nat; 0%nat] ∧
  class_conn w2 !! "Department" = Some 0%nat ∧
  class_conn w2 !! "Project" = Some 1%nat ∧
  class_conn w2 !! "Model" = None ∧
  connects (trace w2) = [0%nat; 1%nat] ∧
  w3 = w2.
Proof. vm_compute. repeat split. Qed.

(** ** Table creation *)



(** The only [ValueError] of [create_table] is the table-name check. *)
Lemma scan_app items items' acc :
  fold_left scan_item (items ++ items') acc =
  fold_left scan_item items' (fold_left scan_item items acc).
Proof. apply fold_left_app. Qed.

(** The items that are not descriptors do not count: a bound [_conn]
    changes neither the accumulators of the first loop nor the primary
    key. *)
Lemma scan_class_items cls b : scan (class_items cls b) = scan (cls_dict cls).
Proof.
  unfold scan, class_items. rewrite scan_app. by destruct b.
Qed.

Lemma first_primary_key_conn items :
  first_primary_key (items ++ [("_conn", FOther)]) = first_primary_key items.
Proof.
  induction items as [|[n f] items IH]; simpl; [done |].
  destruct f as [c| |]; [|done..]. by destruct (primary_key c).
Qed.


Section TableCreation.

Context {Store : Type}.
Variable env : Env Store.

Lemma get_connection_Raise cls (w w' : @World Store) e :
  get_connection env cls w = (Raise e, w') → e = EngineError.
Proof.
  unfold get_connection. destruct (hasattr_conn cls w); [done |].
  destruct (connect env (store w)); [|by intros [= <- _]].
  unfold bind, connect_and_bind, ret; simpl.
  destruct (conn_execute _ _ _ _ _) as [[c|e'] w''] eqn:Hex; [done |].
  intros [= -> _]. by apply conn_execute_Raise in Hex as (_ & -> & _).
Qed.



End TableCreation.



(** ** Query builder: rendering *)

(** A field that calls outside [P] leave alone is decided by the calls
    in [P], in their order. *)
Lemma chain_field_filter {A} (f : QueryBuilder → A) (P : Call → Prop)
    `{!∀ c, Decision (P c)} :
  (∀ b c, ¬ P c → f (call b c) = f b) →
  (∀ b b' c, f b = f b' → f (call b c) = f (call b' c)) →
  ∀ cs b b', f b = f b' → f (chain b cs) = f (chain b' (filter P cs)).
Proof.
  intros Hskip Hcong cs.
  induction cs as [|c cs IH]; intros b b' Hbb'; [done |].
  unfold chain in *. simpl. destruct (decide (P c)) as [Hc|Hc].
  - rewrite filter_cons_True by done. simpl. by apply IH, Hcong.
  - rewrite filter_cons_False by done. apply IH.
    by rewrite Hskip.
Qed.

Lemma chain_field_same {A} (f : QueryBuilder → A) (P : Call → Prop)
    `{!∀ c, Decision (P c)} (cs1 cs2 : list Call) (b : QueryBuilder) :
  (∀ b c, ¬ P c → f (call b c) = f b) →
  (∀ b b' c, f b = f b' → f (call b c) = f (call b' c)) →
  filter P cs1 = filter P cs2 →
  f (chain b cs1) = f (chain b cs2).
Proof.
  intros Hskip Hcong Heq.
  rewrite (chain_field_filter f P Hskip Hcong cs1 b b eq_refl).
  rewrite (chain_field_filter f P Hskip Hcong cs2 b b eq_refl).
  by rewrite Heq.
Qed.

Ltac call_cases :=
  intros; repeat match goal with c : Call |- _ => destruct c end;
  simpl in *; try done; try congruence.

(** The instance of [chain_field_same] for the calls of one clause. *)
Lemma same_field {A} (f : QueryBuilder → A) (k : Kind)
    (cs1 cs2 : list Call) (b : QueryBuilder) :
  (∀ b c, kind c ≠ k → f (call b c) = f b) →
  (∀ b b' c, f b = f b' → f (call b c) = f (call b' c)) →
  filter (λ c, kind c = k) cs1 = filter (λ c, kind c = k) cs2 →
  f (chain b cs1) = f (chain b cs2).
Proof. apply chain_field_same. Qed.

Lemma chain_model_class cs b : model_class (chain b cs) = model_class b.
Proof.
  revert b. induction cs as [|c cs IH]; intros b; [done |].
  unfold chain in *. simpl. rewrite IH. by destruct c.
Qed.

(** Joins and predicates accumulate in call order. *)
Lemma chain_joins cs b : _joins (chain b cs) = _joins b ++ join_texts cs.
Proof.
  revert b. induction cs as [|c cs IH]; intros b.
  - by rewrite app_nil_r.
  - unfold chain in *. simpl. rewrite IH.
    destruct c; simpl; try done. by rewrite <- app_assoc.
Qed.

Lemma chain_where cs b : _where (chain b cs) = _where b ++ where_texts cs.
Proof.
  revert b. induction cs as [|c cs IH]; intros b.
  - by rewrite app_nil_r.
  - unfold chain in *. simpl. rewrite IH.
    destruct c; simpl; try done. by rewrite <- app_assoc.
Qed.

(** The rendered text, clause by clause. *)
Lemma build_query_text (b : QueryBuilder) :
  (_build_query b).1 =
  "SELECT " +:+ _select b +:+ " FROM " +:+
  fmt_opt (_table_name (model_class b)) +:+
  joins_part (_joins b) +:+ where_part (_where b) +:+
  opt_part " GROUP BY " (_group_by b) +:+ opt_part " HAVING " (_having b) +:+
  opt_part " ORDER BY " (_order_by b) +:+
  int_part " LIMIT " (_limit b) +:+ int_part " OFFSET " (_offset b).
Proof. unfold _build_query. simpl. by rewrite !append_assoc. Qed.

(** C8: the statement text lists the clauses in the order SELECT, FROM,
    joins, WHERE, GROUP BY, HAVING, ORDER BY, LIMIT, OFFSET, with joins
    and predicates in call order, whatever the order of the calls; two
    chains of calls that agree clause by clause render the same text. *)
Theorem build_query_clause_order_fixed (b : QueryBuilder) (cs1 cs2 : list Call) :
  (∀ k, filter (λ c, kind c = k) cs1 = filter (λ c, kind c = k) cs2) →
  (_build_query (chain b cs1)).1 = (_build_query (chain b cs2)).1 ∧
  (∀ cs, let q := chain b cs in
     (_build_query q).1 =
     "SELECT " +:+ _select q +:+ " FROM " +:+
     fmt_opt (_table_name (model_class b)) +:+
     joins_part (_joins b ++ join_texts cs) +:+
     where_part (_where b ++ where_texts cs) +:+
     opt_part " GROUP BY " (_group_by q) +:+ opt_part " HAVING " (_having q) +:+
     opt_part " ORDER BY " (_order_by q) +:+
     int_part " LIMIT " (_limit q) +:+ int_part " OFFSET " (_offset q)).
Proof.
  intros Hsame. split.
  - rewrite !build_query_text, !chain_model_class.
    rewrite (same_field _select KSelect cs1 cs2),
      (same_field _joins KJoin cs1 cs2),
      (same_field _where KWhere cs1 cs2),
      (same_field _group_by KGroupBy cs1 cs2),
      (same_field _having KHaving cs1 cs2),
      (same_field _order_by KOrderBy cs1 cs2),
      (same_field _limit KLimit cs1 cs2),
      (same_field _offset KOffset cs1 cs2)
      by (first [apply Hsame | call_cases]).
    done.
  - intros cs q. subst q.
    by rewrite build_query_text, chain_model_class, chain_joins, chain_where.
Qed.

Lemma build_query_clause_order_fixed_witness :
  let b := query Example.Employee in
  let cs1 := [ CLimit (Some 3); CWhere "salary > ?" [VInt 40000];
               COrderBy "name" "ASC";
               CJoin "departments" "employees.department_id = departments.id"
                     "LEFT" ] in
  let cs2 := [ CJoin "departments" "employees.department_id = departments.id"
                     "LEFT";
               COrderBy "name" "ASC"; CWhere "salary > ?" [VInt 40000];
               CLimit (Some 3) ] in
  (_build_query (chain b cs1)).1 = (_build_query (chain b cs2)).1 ∧
  (_build_query (chain b cs1)).1 =
    "SELECT * FROM employees LEFT JOIN departments ON employees.department_id = departments.id WHERE salary > ? ORDER BY name ASC LIMIT 3".
Proof.
  intros b cs1 cs2. split; [|reflexivity].
  apply (build_query_clause_order_fixed b cs1 cs2).
  intros k. destruct k; reflexivity.
Defined.

(** When the calls that bind parameters also keep their relative order,
    the bound parameters agree as well. *)
Lemma build_query_params_same (b : QueryBuilder) (cs1 cs2 : list Call) :
  filter (λ c, binds_params c = true) cs1 =
  filter (λ c, binds_params c = true) cs2 →
  (_build_query (chain b cs1)).2 = (_build_query (chain b cs2)).2.
Proof.
  intros H. unfold _build_query. simpl.
  apply (chain_field_same _params (λ c, binds_params c = true)); [| |done].
  - intros b0 c Hc. destruct c; simpl in *; try done; by rewrite app_nil_r.
  - call_cases.
Qed.

(** Parameters follow the order of the [where] and [having] calls. *)
Example build_query_params_follow_calls :
  (_build_query (chain (query Example.Employee)
     [CHaving (Some "n > ?") [VInt 5]; CWhere "a = ?" [VInt 1]])).2
  = [VInt 5; VInt 1].
Proof. reflexivity. Qed.

(** ** Query builder: counting *)

Lemma count_query_text (b : QueryBuilder) :
  count_query b =
  ("SELECT COUNT(*) FROM " +:+ fmt_opt (_table_name (model_class b)) +:+
   where_part (_where b),
   take (length (_where b)) (_params b)).
Proof.
  unfold count_query. destruct (_where b) as [|c ws]; simpl.
  - by rewrite append_nil_r.
  - by rewrite append_assoc.
Qed.

Section Counting.

Context {Store : Type}.
Variable env : Env Store.


End Counting.


Example count_ignores_limit_and_order :
  count_query
    (chain (query Example.Employee)
       [ CSelect ["name"]; COrderBy "salary" "DESC"; CWhere "department_id = ?" [VInt 1];
         CLimit (Some 1); CWhere "salary > ?" [VInt 40000] ])
  = ("SELECT COUNT(*) FROM employees WHERE department_id = ? AND salary > ?",
     [VInt 1; VInt 40000]).
Proof. reflexivity. Qed.

(** ** Attribute access *)

Section AttributeFacts.

Variable builtin : string → bool.

(** A write to a public name leaves ordinary lookup as it was. *)
Lemma ordinary_lookup_setattr self name v name' :
  ordinary_lookup builtin (setattr_public self name v) name' =
  ordinary_lookup builtin self name'.
Proof.
  unfold setattr_public. by destruct (dict_mem (_relations self) name).
Qed.

(** A name bound in the class body never reaches [__getattr__]. *)
Lemma getattr_class_attribute self name f :
  name ∉ slot_names → dict_get (_extra self) name = None →
  class_lookup (cls_dict (inst_class self)) name = Some f →
  getattr builtin self name = Ok (AClassAttr f).
Proof.
  intros Hslot Hextra Hcls. unfold getattr, ordinary_lookup.
  rewrite bool_decide_eq_false_2 by done. by rewrite Hextra, Hcls.
Qed.

(** C2, as the code has it: for a name that ordinary lookup does not
    resolve, the read returns the entry of the values mapping (the
    value last written through the setter, else the loaded one), else
    the entry of the relation cache, and raises [AttributeError]
    exactly when the name is a key of neither. *)
Theorem getattr_reads_values_mapping (self : Instance) (name : string) :
  ordinary_lookup builtin self name = None →
  getattr builtin self name =
    match dict_get (_data self) name with
    | Some v => Ok (AValue v)
    | None =>
        match dict_get (_relations self) name with
        | Some v => Ok (AValue v)
        | None => Raise (AttributeError name)
        end
    end ∧
  (getattr builtin self name = Raise (AttributeError name) ↔
   dict_mem (_data self) name = false ∧
   dict_mem (_relations self) name = false) ∧
  (∀ e, getattr builtin self name = Raise e → e = AttributeError name) ∧
  (∀ v, startswith_underscore name = false →
        dict_mem (_relations self) name = false →
        match Model_setattr self name v with
        | Some self' =>
            getattr builtin self' name = Ok (AValue v) ∧
            name ∈ _modified self'
        | None => False
        end).
Proof.
  intros Hord.
  assert (getattr builtin self name =
          match dict_get (_data self) name with
          | Some v => Ok (AValue v)
          | None =>
              match dict_get (_relations self) name with
              | Some v => Ok (AValue v)
              | None => Raise (AttributeError name)
              end
          end) as Hget.
  { unfold getattr, Model_getattr. rewrite Hord.
    destruct (dict_get (_data self) name); [done |].
    by destruct (dict_get (_relations self) name). }
  split; [done |]. rewrite Hget.
  split; [|split].
  - unfold dict_mem. destruct (dict_get (_data self) name);
      destruct (dict_get (_relations self) name);
      split; try done; by intros [? ?].
  - intros e. destruct (dict_get (_data self) name);
      destruct (dict_get (_relations self) name); try done.
    by intros [= <-].
  - intros v Hpub Hrel. unfold Model_setattr. rewrite Hpub.
    unfold getattr. rewrite ordinary_lookup_setattr, Hord.
    unfold setattr_public, Model_getattr. rewrite Hrel. simpl.
    rewrite dict_get_set_eq. split; [done | set_solver].
Qed.

End AttributeFacts.

Lemma getattr_reads_values_mapping_witness :
  let emp :=
    from_row Example.Employee
      [("name", VStr "Ana"); ("department", VStr "IT"); ("salary", VInt 42000)] in
  ordinary_lookup dunder emp "department" = None ∧
  getattr dunder emp "department" = Ok (AValue (VStr "IT")) ∧
  Model_setattr emp "department" (VStr "HR")
    = Some (setattr_public emp "department" (VStr "HR")) ∧
  getattr dunder (setattr_public emp "department" (VStr "HR")) "department"
    = Ok (AValue (VStr "HR")).
Proof.
  intros emp. split; [reflexivity |].
  destruct (getattr_reads_values_mapping dunder emp "department" eq_refl)
    as (Hget & _ & _ & Hset).
  split; [exact Hget |]. split; [reflexivity |].
  exact (proj1 (Hset (VStr "HR") eq_refl eq_refl)).
Defined.

(** Two reads that do not follow the declaration.  [name] is declared on
    [Department] and holds ["IT"] in the values mapping, yet [it.name]
    evaluates to the class-level [Column]; [department] is not declared
    on [Employee], yet [emp.department], as read in [example.py] after a
    join, returns the loaded value without error. *)
Lemma getattr_not_decided_by_declaration :
  let it :=
    new Example.Department [("name", VStr "IT"); ("budget", VInt 100000)] in
  let emp :=
    from_row Example.Employee
      [("name", VStr "Ana"); ("department", VStr "IT"); ("salary", VInt 42000)] in
  declared Example.Department "name" = true ∧
  dict_get (_data it) "name" = Some (VStr "IT") ∧
  getattr dunder it "name" =
    Ok (AClassAttr (FColumn (MkColumn "TEXT" false false true))) ∧
  declared Example.Employee "department" = false ∧
  getattr dunder emp "department" = Ok (AValue (VStr "IT")).
Proof. vm_compute. repeat split. Qed.

(** ** Persistence *)

Section Persistence.

Context {Store : Type}.
Variable env : Env Store.

(** [save], step by step. *)
Lemma save_unfold (self : Instance) (w : @World Store) :
  save env (self, w) =
  let cls := inst_class self in
  let table := self_table_name self in
  let pk := get_primary_key cls in
  let pk_value := data_get self pk in
  if negb (py_truthy table) then
    (Raise (ValueError "Nombre de tabla no definido"), (self, w))
  else
    match get_connection env cls w with
    | (Raise e, w1) => (Raise e, (self, w1))
    | (Ok h, w1) =>
        if negb (is_open h w1) then (Raise EngineError, (self, w1))
        else if is_not_None pk_value then
          let cols := set_iter env (_modified self) in
          let sql := update_sql (py_str table) pk cols in
          match dict_getitems (_data self) cols with
          | Raise e => (Raise e, (self, w1))
          | Ok values =>
              let ev := EvExecute h sql (values ++ [pk_value]) in
              match execute env (store w1) sql (values ++ [pk_value]) with
              | None => (Raise EngineError, (self, log ev w1))
              | Some (st, _) =>
                  match commit env st with
                  | Some st' =>
                      (Ok tt, (clear_modified self,
                               answered st' (EvCommit h) (answered st ev w1)))
                  | None =>
                      (Raise EngineError,
                       (self, log (EvCommitFailed h) (answered st ev w1)))
                  end
              end
          end
        else
          let cols := dict_keys (_data self) in
          let sql := insert_sql (py_str table) cols in
          match dict_getitems (_data self) cols with
          | Raise e => (Raise e, (self, w1))
          | Ok values =>
              let ev := EvExecute h sql values in
              match execute env (store w1) sql values with
              | None => (Raise EngineError, (self, log ev w1))
              | Some (st, cursor) =>
                  let self1 :=
                    if truthy_str pk
                    then set_data self
                           (dict_set (_data self) pk (VInt (lastrowid cursor)))
                    else self in
                  match commit env st with
                  | Some st' =>
                      (Ok tt, (clear_modified self1,
                               answered st' (EvCommit h) (answered st ev w1)))
                  | None =>
                      (Raise EngineError,
                       (self1, log (EvCommitFailed h) (answered st ev w1)))
                  end
              end
          end
    end.
Proof.
  unfold save, bind, get_self, raise, liftW, of_outcome, modify_self, ret,
    conn_execute, conn_cursor; simpl.
  destruct (py_truthy (self_table_name self)); simpl; [|done].
  destruct (get_connection env (inst_class self) w) as [[h|e] w1];
    simpl; [|done].
  destruct (is_open h w1) eqn:Hopen; simpl; [|done].
  destruct (is_not_None _); simpl.
  - destruct (dict_getitems _ _) as [values|e]; simpl; [|done].
    rewrite execute_on_open by done.
    destruct (execute env _ _ _) as [[st c]|]; simpl; [|done].
    rewrite conn_commit_open by done. simpl.
    by destruct (commit env st).
  - destruct (dict_getitems _ _) as [values|e]; simpl; [|done].
    rewrite execute_on_open by done.
    destruct (execute env _ _ _) as [[st c]|]; simpl; [|done].
    destruct (truthy_str _); simpl;
      (rewrite conn_commit_open by done); simpl;
      by destruct (commit env st).
Qed.

(** [delete], step by step. *)
Lemma delete_unfold (self : Instance) (w : @World Store) :
  delete env (self, w) =
  let cls := inst_class self in
  let table := self_table_name self in
  let pk := get_primary_key cls in
  let pk_value := data_get self pk in
  if negb (py_truthy table) then
    (Raise (ValueError "Nombre de tabla no definido"), (self, w))
  else if negb (is_not_None pk_value) then
    (Raise (ValueError "No se puede eliminar un registro sin clave primaria"),
     (self, w))
  else
    match get_connection env cls w with
    | (Raise e, w1) => (Raise e, (self, w1))
    | (Ok h, w1) =>
        let sql := delete_sql (py_str table) pk in
        let ev := EvExecute h sql [pk_value] in
        match execute_on env h w1 sql [pk_value] with
        | None => (Raise EngineError, (self, log ev w1))
        | Some (st, _) =>
            match commit env st with
            | Some st' =>
                (Ok tt, (self, answered st' (EvCommit h) (answered st ev w1)))
            | None =>
                (Raise EngineError,
                 (self, log (EvCommitFailed h) (answered st ev w1)))
            end
        end
    end.
Proof.
  unfold delete, bind, get_self, raise, liftW, conn_execute; simpl.
  destruct (py_truthy (self_table_name self)); simpl; [|done].
  destruct (is_not_None _); simpl; [|done].
  destruct (get_connection env (inst_class self) w) as [[h|e] w1];
    simpl; [|done].
  destruct (execute_on _ _ _ _ _) as [[st c]|] eqn:Hx; simpl; [|done].
  apply execute_on_Some in Hx as [Hopen _].
  rewrite conn_commit_open by done. simpl.
  by destruct (commit env st).
Qed.

(** A successful [save] leaves no dirty name. *)
Lemma save_Ok_clears_modified (self self' : Instance) (w w' : @World Store) :
  save env (self, w) = (Ok tt, (self', w')) → _modified self' = ∅.
Proof.
  rewrite save_unfold. simpl.
  destruct (negb _); [done |].
  destruct (get_connection _ _ _) as [[h|e] w1]; [|done].
  destruct (negb _); [done |].
  destruct (is_not_None _).
  - destruct (dict_getitems _ _) as [values|e]; [|done].
    destruct (execute env _ _ _) as [[st c]|]; [|done].
    destruct (commit env st); [|done].
    by intros [= <- _].
  - destruct (dict_getitems _ _) as [values|e]; [|done].
    destruct (execute env _ _ _) as [[st c]|]; [|done].
    destruct (commit env st); [|done].
    by intros [= <- _].
Qed.

(** The invariant of the dirty set under the operations that touch it. *)
Lemma dirty_in_values_new cls kwargs : dirty_in_values (new cls kwargs) = true.
Proof. reflexivity. Qed.

Lemma dirty_in_values_from_row cls row :
  dirty_in_values (from_row cls row) = true.
Proof. reflexivity. Qed.

Lemma dict_mem_set d k v k' :
  dict_mem d k' = true → dict_mem (dict_set d k v) k' = true.
Proof.
  unfold dict_mem. destruct (decide (k = k')) as [->|Hne].
  - by rewrite dict_get_set_eq.
  - by rewrite dict_get_set_ne.
Qed.

Lemma dict_getitems_data_get (d : Dict) (cols : list string) :
  forallb (dict_mem d) cols = true →
  dict_getitems d cols = Ok ((λ c, default VNone (dict_get d c)) <$> cols).
Proof.
  induction cols as [|c cols IH]; simpl; [done |].
  intros [Hc Hcols]%andb_prop. unfold dict_mem in Hc.
  destruct (dict_get d c) as [v|]; [|done]. by rewrite IH.
Qed.

Lemma forallb_dict_keys (d : Dict) :
  forallb (dict_mem d) (dict_keys d) = true.
Proof.
  apply forallb_forall. intros c Hc. apply list_elem_of_In in Hc.
  unfold dict_mem. by destruct (dict_get_keys d c Hc) as [v ->].
Qed.

(** Whatever the order of iteration, the names met are the dirty
    names. *)
Lemma elem_of_set_iter (s : gset string) (c : string) :
  c ∈ set_iter env s ↔ c ∈ s.
Proof. rewrite (set_iter_perm env s). apply elem_of_elements. Qed.

Lemma NoDup_set_iter (s : gset string) : NoDup (set_iter env s).
Proof. rewrite (set_iter_perm env s). apply NoDup_elements. Qed.

Lemma dirty_set_iter (self : Instance) :
  dirty_in_values self = true →
  forallb (dict_mem (_data self)) (set_iter env (_modified self)) = true.
Proof.
  unfold dirty_in_values. intros H. apply forallb_forall. intros c Hc.
  apply (proj1 (forallb_forall _ _) H).
  apply list_elem_of_In, elem_of_elements.
  by apply elem_of_set_iter, list_elem_of_In.
Qed.

Lemma dirty_in_values_set_data self k v :
  dirty_in_values self = true →
  dirty_in_values (set_data self (dict_set (_data self) k v)) = true.
Proof.
  unfold dirty_in_values, set_data. simpl. intros H.
  apply forallb_forall. intros c Hc. apply dict_mem_set.
  by apply (proj1 (forallb_forall _ _) H).
Qed.

Lemma dirty_in_values_setattr_public self name v :
  dirty_in_values self = true →
  dirty_in_values (setattr_public self name v) = true.
Proof.
  unfold dirty_in_values, setattr_public. intros H.
  destruct (dict_mem (_relations self) name); [done |]. simpl.
  apply forallb_forall. intros c Hc.
  apply list_elem_of_In, elem_of_elements, elem_of_union in Hc as [Hc|Hc].
  - apply elem_of_singleton in Hc as ->. unfold dict_mem.
    by rewrite dict_get_set_eq.
  - apply dict_mem_set.
    apply (proj1 (forallb_forall _ _) H).
    by apply list_elem_of_In, elem_of_elements.
Qed.

Lemma dirty_in_values_setattr self self' name v :
  Model_setattr self name v = Some self' →
  dirty_in_values self = true → dirty_in_values self' = true.
Proof.
  unfold Model_setattr. destruct (startswith_underscore name).
  - destruct (bool_decide _); [done |]. by intros [= <-].
  - intros [= <-]. apply dirty_in_values_setattr_public.
Qed.

Lemma dirty_in_values_save self (w : @World Store) :
  dirty_in_values self = true →
  dirty_in_values (save env (self, w)).2.1 = true.
Proof.
  intros H. rewrite save_unfold. simpl.
  destruct (negb _); [done |].
  destruct (get_connection _ _ _) as [[h|e] w1]; [|done].
  destruct (negb _); [done |].
  destruct (is_not_None _).
  - destruct (dict_getitems _ _) as [values|e]; [|done].
    destruct (execute env _ _ _) as [[st c]|]; [|done].
    by destruct (commit env st).
  - destruct (dict_getitems _ _) as [values|e]; [|done].
    destruct (execute env _ _ _) as [[st c]|]; [|done].
    destruct (commit env st); [done |]. simpl.
    destruct (truthy_str _); [|done].
    by apply dirty_in_values_set_data.
Qed.

Lemma dirty_in_values_delete self (w : @World Store) :
  dirty_in_values self = true →
  dirty_in_values (delete env (self, w)).2.1 = true.
Proof.
  intros H. rewrite delete_unfold. simpl.
  destruct (negb _); [done |]. destruct (negb _); [done |].
  destruct (get_connection _ _ _) as [[h|e] w1]; [|done].
  destruct (execute_on _ _ _ _ _) as [[st c]|]; [|done].
  by destruct (commit env st).
Qed.

(** Every instance that starts from [__init__] or [from_row] and goes
    through writes, saves and deletes has its dirty names among the keys
    of its values. *)
Lemma dirty_in_values_reachable (s s' : Instance * @World Store) :
  rtc (step env) s s' →
  dirty_in_values s.1 = true → dirty_in_values s'.1 = true.
Proof.
  induction 1 as [|s1 s2 s3 Hstep _ IH]; [done |].
  intros H. apply IH. destruct Hstep; simpl in *.
  - by eapply dirty_in_values_setattr.
  - by apply dirty_in_values_save.
  - by apply dirty_in_values_delete.
Qed.

(** C4: with a table name bound and an open connection obtained,
    [save] sends one statement.  If the primary-key attribute holds a value it
    is an UPDATE whose SET list is the dirty columns, each once, in the
    order in which the interpreter iterates the dirty set, bound to
    their current values in that same order, with the key value bound
    last for the WHERE clause.  Otherwise it is an INSERT over all keys
    of the values mapping, after which the values mapping holds the
    [lastrowid] the engine reports under the primary-key name and every
    other value as before.  When the engine accepts the statement and
    the commit, the dirty set is emptied.  When the engine refuses the
    statement, the instance is as before; when the commit raises, the
    dirty set is as before and, after an INSERT, the key is already
    stored.  On a connection that has been closed, [save] raises
    without sending anything. *)
Theorem save_updates_dirty_or_inserts_all
    (self : Instance) (w w1 : @World Store) (h : nat) :
  py_truthy (self_table_name self) = true →
  dirty_in_values self = true →
  truthy_str (get_primary_key (inst_class self)) = true →
  get_connection env (inst_class self) w = (Ok h, w1) →
  let table := py_str (self_table_name self) in
  let pk := get_primary_key (inst_class self) in
  let pk_value := data_get self pk in
  let bound := is_not_None pk_value in
  let cols :=
    if bound then set_iter env (_modified self) else dict_keys (_data self) in
  let values := data_get self <$> cols in
  let sql :=
    if bound then update_sql table pk cols else insert_sql table cols in
  let params := if bound then values ++ [pk_value] else values in
  (if is_open h w1 then
     match execute env (store w1) sql params with
     | Some (st, cursor) =>
         let data1 :=
           if bound then _data self
           else dict_set (_data self) pk (VInt (lastrowid cursor)) in
         match commit env st with
         | Some st' =>
             save env (self, w) =
               (Ok tt,
                (MkInstance (inst_class self) data1 ∅ (_relations self)
                            (_extra self),
                 answered st' (EvCommit h)
                   (answered st (EvExecute h sql params) w1)))
         | None =>
             save env (self, w) =
               (Raise EngineError,
                (MkInstance (inst_class self) data1 (_modified self)
                            (_relations self) (_extra self),
                 log (EvCommitFailed h)
                   (answered st (EvExecute h sql params) w1)))
         end ∧
         (bound = false →
          dict_get data1 pk = Some (VInt (lastrowid cursor)) ∧
          ∀ k, k ≠ pk → dict_get data1 k = dict_get (_data self) k)
     | None =>
         save env (self, w) =
           (Raise EngineError, (self, log (EvExecute h sql params) w1))
     end
   else save env (self, w) = (Raise EngineError, (self, w1))) ∧
  (bound = true →
   cols ≡ₚ elements (_modified self) ∧ NoDup cols ∧
   ∀ c, c ∈ cols ↔ c ∈ _modified self) ∧
  (∀ self' w', save env (self, w) = (Ok tt, (self', w')) →
               _modified self' = ∅).
Proof.
  intros Htable Hdirty Hpk Hconn table pk pk_value bound cols values sql
    params.
  split; [|split].
  - rewrite save_unfold. simpl. rewrite Htable, Hconn. simpl.
    subst params sql values cols bound pk_value pk table.
    destruct (is_open h w1); simpl; [|done].
    destruct (is_not_None _) eqn:Hb.
    + rewrite (dict_getitems_data_get _ _ (dirty_set_iter _ Hdirty)).
      destruct (execute env _ _ _) as [[st c]|]; [|done].
      split; [|done]. destruct self. by destruct (commit env st).
    + rewrite (dict_getitems_data_get _ _ (forallb_dict_keys _)).
      destruct (execute env _ _ _) as [[st c]|]; [|done].
      rewrite Hpk. split.
      * by destruct (commit env st).
      * intros _. split; [apply dict_get_set_eq |].
        intros k Hk. by apply dict_get_set_ne.
  - intros Hb. subst cols. rewrite Hb.
    split; [apply set_iter_perm |]. split; [apply NoDup_set_iter |].
    intros c. apply elem_of_set_iter.
  - intros self' w'. apply save_Ok_clears_modified.
Qed.

End Persistence.

Lemma save_updates_dirty_or_inserts_all_witness :
  let w1 := (get_connection sample_env Example.Department world0).2 in
  let department d m := MkInstance Example.Department d m [] [] in
  save sample_env (dept_loaded, world0) =
    (Ok tt,
     (department
        [("id", VInt 1); ("name", VStr "IT"); ("budget", VInt 90000)] ∅,
      answered 0 (EvCommit 0)
        (answered 0
           (EvExecute 0 "UPDATE departments SET budget = ? WHERE id = ?"
                      [VInt 90000; VInt 1]) w1))) ∧
  save sample_env (dept_new, world0) =
    (Ok tt,
     (department
        [("name", VStr "HR"); ("budget", VInt 80000); ("id", VInt 1)] ∅,
      answered 1 (EvCommit 0)
        (answered 1
           (EvExecute 0 "INSERT INTO departments (name, budget) VALUES (?, ?)"
                      [VStr "HR"; VInt 80000]) w1))) ∧
  save sample_env (dept_two, world0) =
    (Ok tt,
     (department
        [("id", VInt 1); ("name", VStr "Ops"); ("budget", VInt 90000)] ∅,
      answered 0 (EvCommit 0)
        (answered 0
           (EvExecute 0
              "UPDATE departments SET name = ?, budget = ? WHERE id = ?"
              [VStr "Ops"; VInt 90000; VInt 1]) w1))) ∧
  save reversed_env (dept_two, world0) =
    (Ok tt,
     (department
        [("id", VInt 1); ("name", VStr "Ops"); ("budget", VInt 90000)] ∅,
      answered 0 (EvCommit 0)
        (answered 0
           (EvExecute 0
              "UPDATE departments SET budget = ?, name = ? WHERE id = ?"
              [VInt 90000; VStr "Ops"; VInt 1]) w1))) ∧
  save failing_commit_env (dept_new, world0) =
    (Raise EngineError,
     (department
        [("name", VStr "HR"); ("budget", VInt 80000); ("id", VInt 1)] ∅,
      log (EvCommitFailed 0)
        (answered 1
           (EvExecute 0 "INSERT INTO departments (name, budget) VALUES (?, ?)"
                      [VStr "HR"; VInt 80000]) w1))).
Proof.
  intros w1 department.
  split; [|split; [|split; [|split]]].
  - exact (proj1 (proj1 (save_updates_dirty_or_inserts_all sample_env
                    dept_loaded world0 w1 0 eq_refl eq_refl eq_refl eq_refl))).
  - exact (proj1 (proj1 (save_updates_dirty_or_inserts_all sample_env
                    dept_new world0 w1 0 eq_refl eq_refl eq_refl eq_refl))).
  - exact (proj1 (proj1 (save_updates_dirty_or_inserts_all sample_env
                    dept_two world0 w1 0 eq_refl eq_refl eq_refl eq_refl))).
  - exact (proj1 (proj1 (save_updates_dirty_or_inserts_all reversed_env
                    dept_two world0 w1 0 eq_refl eq_refl eq_refl eq_refl))).
  - exact (proj1 (proj1 (save_updates_dirty_or_inserts_all failing_commit_env
                    dept_new world0 w1 0 eq_refl eq_refl eq_refl eq_refl))).
Defined.

(** ** Saving again, and saving after a delete *)

Section Resaving.

Context {Store : Type}.
Variable env : Env Store.

(** An empty set is iterated in no step, a singleton in one. *)
Lemma set_iter_empty : set_iter env ∅ = [].
Proof.
  apply Permutation_nil_r. rewrite (set_iter_perm env ∅).
  by rewrite elements_empty.
Qed.

Lemma set_iter_singleton (name : string) : set_iter env {[name]} = [name].
Proof.
  apply Permutation_singleton_r. rewrite (set_iter_perm env {[name]}).
  by rewrite elements_singleton.
Qed.

(** What a bound instance sends when nothing is dirty. *)
Lemma save_clean_bound (self : Instance) (w : @World Store) (h : nat) :
  py_truthy (self_table_name self) = true →
  is_not_None (data_get self (get_primary_key (inst_class self))) = true →
  _modified self = ∅ →
  hasattr_conn (inst_class self) w = Some h →
  is_open h w = true →
  let pk := get_primary_key (inst_class self) in
  let sql := update_sql (py_str (self_table_name self)) pk [] in
  let ev := EvExecute h sql [data_get self pk] in
  save env (self, w) =
    match execute env (store w) sql [data_get self pk] with
    | Some (st, _) =>
        match commit env st with
        | Some st' =>
            (Ok tt, (clear_modified self,
                     answered st' (EvCommit h) (answered st ev w)))
        | None =>
            (Raise EngineError,
             (self, log (EvCommitFailed h) (answered st ev w)))
        end
    | None => (Raise EngineError, (self, log ev w))
    end.
Proof.
  intros Htable Hbound Hclean Hconn Hopen pk sql ev.
  rewrite save_unfold. simpl.
  rewrite Htable, (get_connection_bound env _ _ _ Hconn), Hopen, Hbound.
  simpl. rewrite Hclean, set_iter_empty. simpl.
  by destruct (execute env _ _ _) as [[st c]|].
Qed.

(** C5, as the code behaves: after a successful [save] of a bound
    instance, a second [save] with no write in between is not skipped.
    It sends, on the same connection, which is still open, the text
    [UPDATE <table> SET  WHERE <pk> = ?], an UPDATE with nothing
    between SET and WHERE, with the key value as only parameter.  It
    returns normally only when the engine accepts that text and the
    commit; when the engine refuses it, the second [save] raises the
    engine's error.  The instance stays as the first call left it. *)
Theorem save_twice_second_update_is_empty
    (self self1 : Instance) (w w1 : @World Store) :
  is_not_None (data_get self (get_primary_key (inst_class self))) = true →
  save env (self, w) = (Ok tt, (self1, w1)) →
  let pk := get_primary_key (inst_class self) in
  let pk_value := data_get self pk in
  let sql :=
    "UPDATE " +:+ py_str (self_table_name self) +:+ " SET  WHERE " +:+
    pk +:+ " = ?" in
  _modified self1 = ∅ ∧
  match hasattr_conn (inst_class self) w1 with
  | None => False
  | Some h =>
      is_open h w1 = true ∧
      match execute env (store w1) sql [pk_value] with
      | Some (st, _) =>
          match commit env st with
          | Some st' =>
              save env (self1, w1) =
                (Ok tt,
                 (self1,
                  answered st' (EvCommit h)
                    (answered st (EvExecute h sql [pk_value]) w1)))
          | None =>
              save env (self1, w1) =
                (Raise EngineError,
                 (self1,
                  log (EvCommitFailed h)
                    (answered st (EvExecute h sql [pk_value]) w1)))
          end
      | None =>
          save env (self1, w1) =
            (Raise EngineError,
             (self1, log (EvExecute h sql [pk_value]) w1))
      end
  end.
Proof.
  intros Hbound Hsave pk pk_value sql.
  pose proof Hsave as Hfirst.
  rewrite save_unfold in Hfirst. simpl in Hfirst.
  destruct (py_truthy (self_table_name self)) eqn:Htable; [|done].
  simpl in Hfirst.
  destruct (get_connection env (inst_class self) w) as [[h|e] w0] eqn:Hc;
    [|done].
  destruct (is_open h w0) eqn:Hopen; [|done]. simpl in Hfirst.
  rewrite Hbound in Hfirst.
  destruct (dict_getitems _ _) as [values|e]; [|done].
  destruct (execute env (store w0) _ _) as [[st c]|]; [|done].
  destruct (commit env st) as [st'|]; [|done].
  injection Hfirst as <- <-.
  apply get_connection_Ok in Hc.
  remember (answered st' (EvCommit h) _) as w1 eqn:Hw1.
  assert (hasattr_conn (inst_class self) w1 = Some h) as Hh
    by (by rewrite Hw1).
  assert (is_open h w1 = true) as Hopen1 by (by rewrite Hw1).
  rewrite Hh. split; [done |]. split; [done |].
  pose proof (save_clean_bound (clear_modified self) w1 h Htable Hbound
                eq_refl Hh Hopen1) as Hsecond.
  cbv zeta in Hsecond.
  change (update_sql _ _ []) with sql in Hsecond.
  change (data_get (clear_modified self) _) with pk_value in Hsecond.
  change (clear_modified (clear_modified self)) with (clear_modified self)
    in Hsecond.
  rewrite Hsecond. clear Hsecond Hsave Hw1.
  destruct (execute env _ sql _) as [[st1 c1]|]; [|done].
  by destruct (commit env st1).
Qed.

(** C10: [delete] returns the instance as it received it, values,
    dirty set and key value included, whatever the outcome.  After a
    successful [delete] the key attribute still holds its value and the
    connection is still open, so [save] sends the UPDATE of the dirty
    columns for that key; the columns of its SET list follow the order
    in which the interpreter iterates the dirty set, and the parameters
    follow the columns. *)
Theorem delete_keeps_instance_for_update (self : Instance) (w : @World Store) :
  (delete env (self, w)).2.1 = self ∧
  ((delete env (self, w)).1 = Ok tt →
   dirty_in_values self = true →
   let w' := (delete env (self, w)).2.2 in
   let pk := get_primary_key (inst_class self) in
   let pk_value := data_get self pk in
   let cols := set_iter env (_modified self) in
   let sql := update_sql (py_str (self_table_name self)) pk cols in
   let params := (data_get self <$> cols) ++ [pk_value] in
   is_not_None pk_value = true ∧
   cols ≡ₚ elements (_modified self) ∧
   match hasattr_conn (inst_class self) w' with
   | None => False
   | Some h =>
       match execute env (store w') sql params with
       | Some (st, _) =>
           match commit env st with
           | Some st' =>
               save env (self, w') =
                 (Ok tt,
                  (MkInstance (inst_class self) (_data self) ∅
                              (_relations self) (_extra self),
                   answered st' (EvCommit h)
                     (answered st (EvExecute h sql params) w')))
           | None =>
               save env (self, w') =
                 (Raise EngineError,
                  (self,
                   log (EvCommitFailed h)
                     (answered st (EvExecute h sql params) w')))
           end
       | None =>
           save env (self, w') =
             (Raise EngineError, (self, log (EvExecute h sql params) w'))
       end
   end).
Proof.
  rewrite delete_unfold. simpl.
  destruct (py_truthy (self_table_name self)) eqn:Htable; simpl;
    [|by split].
  destruct (is_not_None _) eqn:Hbound; simpl; [|by split].
  destruct (get_connection env (inst_class self) w) as [[h|e] w0] eqn:Hc;
    [|by split].
  apply get_connection_Ok in Hc.
  destruct (execute_on env h w0 _ _) as [[st c]|] eqn:Hx; simpl; [|by split].
  apply execute_on_Some in Hx as [Hopen _].
  destruct (commit env st) as [st'|]; simpl; [|by split].
  split; [done |]. intros _ Hdirty. split; [done |].
  split; [apply set_iter_perm |].
  match goal with
  | |- context [hasattr_conn ?cls ?w'] =>
      assert (hasattr_conn cls w' = Some h) as Hh by done;
      assert (is_open h w' = true) as Hopen' by done;
      rewrite Hh
  end.
  rewrite save_unfold. simpl.
  rewrite Htable, Hbound. simpl.
  rewrite (get_connection_bound env (inst_class self) _ h Hh), Hopen'.
  simpl.
  rewrite (dict_getitems_data_get _ _ (dirty_set_iter env _ Hdirty)).
  destruct (execute env _ _ _) as [[st1 c1]|]; [|done].
  by destruct (commit env st1).
Qed.

End Resaving.

(** On an engine that refuses an UPDATE without assignments, as SQLite
    does, the second [save] raises: after a write and a save, and after
    the INSERT of a new instance. *)
Lemma save_twice_second_update_is_empty_witness :
  let first := save strict_env (dept_loaded, world0) in
  first.1 = Ok tt ∧
  save strict_env first.2 =
    (Raise EngineError,
     (first.2.1,
      log (EvExecute 0 "UPDATE departments SET  WHERE id = ?" [VInt 1])
          first.2.2)).
Proof.
  intros first. split; [reflexivity |].
  exact (proj2 (proj2 (save_twice_second_update_is_empty strict_env dept_loaded
                         first.2.1 world0 first.2.2 eq_refl eq_refl))).
Defined.

Lemma delete_keeps_instance_for_update_witness :
  let w' := (delete sample_env (dept_two, world0)).2.2 in
  let saved :=
    MkInstance Example.Department
      [("id", VInt 1); ("name", VStr "Ops"); ("budget", VInt 90000)] ∅ [] [] in
  (delete sample_env (dept_two, world0)).1 = Ok tt ∧
  (delete sample_env (dept_two, world0)).2.1 = dept_two ∧
  save sample_env (dept_two, w') =
    (Ok tt,
     (saved,
      answered 0 (EvCommit 0)
        (answered 0
           (EvExecute 0
              "UPDATE departments SET name = ?, budget = ? WHERE id = ?"
              [VStr "Ops"; VInt 90000; VInt 1]) w'))) ∧
  save reversed_env (dept_two, w') =
    (Ok tt,
     (saved,
      answered 0 (EvCommit 0)
        (answered 0
           (EvExecute 0
              "UPDATE departments SET budget = ?, name = ? WHERE id = ?"
              [VInt 90000; VStr "Ops"; VInt 1]) w'))).
Proof.
  intros w' saved. split; [reflexivity |].
  destruct (delete_keeps_instance_for_update sample_env dept_two world0)
    as [Hsame Hsave].
  destruct (delete_keeps_instance_for_update reversed_env dept_two world0)
    as [_ Hsave'].
  split; [exact Hsame |]. split.
  - exact (proj2 (proj2 (Hsave eq_refl eq_refl))).
  - exact (proj2 (proj2 (Hsave' eq_refl eq_refl))).
Defined.

(** ** Relation helpers *)

Lemma where_query_text (target : ModelClass) (cond : string) (v : Value) :
  _build_query (where_ (query target) cond [v]) =
  ("SELECT * FROM " +:+ fmt_opt (_table_name target) +:+ " WHERE " +:+ cond,
   [v]).
Proof.
  unfold _build_query. simpl. f_equal.
  change (str_join " AND " [cond]) with cond.
  unfold opt_part, int_part, joins_part, where_part. simpl.
  by rewrite !append_nil_r, !append_assoc.
Qed.

(** [lower] keeps the length and maps each character on its own: the
    letters A to Z (codes 65 to 90) move up by 32, to a to z, and every
    other character stays. *)
Lemma lower_get (t : string) (i : nat) (c : ascii) :
  String.get i t = Some c →
  String.get i (lower t) =
    Some (if (Nat.leb 65 (nat_of_ascii c) && Nat.leb (nat_of_ascii c) 90)%bool
          then ascii_of_nat (nat_of_ascii c + 32) else c).
Proof.
  revert i. induction t as [|c' t IH]; intros i; [done |].
  destruct i as [|i]; simpl.
  - by intros [= ->].
  - apply IH.
Qed.

Lemma lower_length (t : string) : String.length (lower t) = String.length t.
Proof. induction t as [|c t IH]; [done | simpl; by rewrite IH]. Qed.

Section Relations.

Context {Store : Type}.
Variable env : Env Store.

(** C3, as the code has it: without a foreign-key name, [belongs_to]
    uses the target's table name in lower case followed by [_id], and
    [has_many] the instance's own table name in the same way; nothing
    makes the name singular.  For an ASCII table name, lower case means
    that each letter A to Z is replaced by the letter a to z and
    nothing else changes.  [belongs_to] returns [None], sending
    nothing, when the resolved name is not a key of the values mapping.
    [has_many], when the values mapping holds the primary key, selects
    from the target table the rows whose foreign-key column equals that
    key value and returns one instance per row of the answer. *)
Theorem relations_resolve_by_table_name
    (self : Instance) (target : ModelClass) (w : @World Store) :
  (∀ t, _table_name target = Some t →
        resolve_fk env (cls_table_name target) None
          = Ok (str_lower env t +:+ "_id")) ∧
  (∀ t, self_table_name self = VStr t →
        resolve_fk env (self_table_name self) None
          = Ok (str_lower env t +:+ "_id")) ∧
  (∀ t, ascii_only t = true →
        String.length (str_lower env t) = String.length t ∧
        ∀ i c, String.get i t = Some c →
          String.get i (str_lower env t) =
            Some (if (Nat.leb 65 (nat_of_ascii c) &&
                      Nat.leb (nat_of_ascii c) 90)%bool
                  then ascii_of_nat (nat_of_ascii c + 32) else c)) ∧
  (∀ foreign_key fk,
     resolve_fk env (cls_table_name target) foreign_key = Ok fk →
     dict_get (_data self) fk = None →
     belongs_to env self target foreign_key w = (Ok None, w)) ∧
  (∀ foreign_key fk v h w1,
     resolve_fk env (self_table_name self) foreign_key = Ok fk →
     dict_get (_data self) (get_primary_key (inst_class self)) = Some v →
     get_connection env target w = (Ok h, w1) →
     let sql :=
       "SELECT * FROM " +:+ fmt_opt (_table_name target) +:+ " WHERE " +:+
       fk +:+ " = ?" in
     match execute_on env h w1 sql [v] with
     | Some (st, cursor) =>
         has_many env self target foreign_key w =
           (Ok (from_row target <$> cur_rows cursor),
            answered st (EvExecute h sql [v]) w1)
     | None =>
         has_many env self target foreign_key w =
           (Raise EngineError, log (EvExecute h sql [v]) w1)
     end).
Proof.
  split; [|split; [|split; [|split]]].
  - intros t Ht. unfold cls_table_name. by rewrite Ht.
  - intros t Ht. by rewrite Ht.
  - intros t Hascii. unfold str_lower. rewrite Hascii.
    split; [apply lower_length |]. intros i c. apply lower_get.
  - intros foreign_key fk Hfk Hno.
    unfold belongs_to, bind, of_outcome, ret. by rewrite Hfk, Hno.
  - intros foreign_key fk v h w1 Hfk Hpk Hconn sql.
    unfold has_many, bind, of_outcome, all. rewrite Hfk, Hpk.
    rewrite where_query_text. simpl.
    unfold bind. rewrite Hconn. unfold conn_execute, ret.
    fold sql. by destruct (execute_on env h w1 sql [v]) as [[st c]|].
Qed.

End Relations.

Lemma relations_resolve_by_table_name_witness :
  let w1 := (get_connection sample_env Example.Employee world_two_rows).2 in
  resolve_fk sample_env (cls_table_name Sample.Team) None = Ok "teams_id" ∧
  resolve_fk sample_env (cls_table_name Example.Department) None
    = Ok "departments_id" ∧
  resolve_fk sample_env (self_table_name dept_row) None = Ok "departments_id" ∧
  String.get 0 (str_lower sample_env "Teams") = Some "t"%char ∧
  String.get 4 (str_lower sample_env "Teams") = Some "s"%char ∧
  belongs_to sample_env emp_loaded Example.Department None world0
    = (Ok None, world0) ∧
  has_many sample_env dept_row Example.Employee None world_two_rows =
    (Ok [ from_row Example.Employee [("id", VInt 1)];
          from_row Example.Employee [("id", VInt 2)] ],
     answered 2
       (EvExecute 0 "SELECT * FROM employees WHERE departments_id = ?"
                  [VInt 1]) w1).
Proof.
  intros w1.
  destruct (relations_resolve_by_table_name
              sample_env emp_loaded Sample.Team world0)
    as (Hteam & _ & Hlower & _).
  destruct (relations_resolve_by_table_name
              sample_env emp_loaded Example.Department world0)
    as (Hname & _ & _ & Hbelongs & _).
  destruct (relations_resolve_by_table_name
              sample_env dept_row Example.Employee world_two_rows)
    as (_ & Hself & _ & _ & Hmany).
  split; [exact (Hteam "Teams" eq_refl) |].
  split; [exact (Hname "departments" eq_refl) |].
  split; [exact (Hself "departments" eq_refl) |].
  split; [exact (proj2 (Hlower "Teams" eq_refl) 0%nat "T"%char eq_refl) |].
  split; [exact (proj2 (Hlower "Teams" eq_refl) 4%nat "s"%char eq_refl) |].
  split; [exact (Hbelongs None "departments_id" eq_refl eq_refl) |].
  exact (Hmany None "departments_id" (VInt 1) 0%nat w1 eq_refl eq_refl eq_refl).
Defined.

(** [Employee] of [example.py] keeps its department under
    [department_id], the singular of the table name [departments]
    followed by [_id].  [belongs_to] looks for [departments_id], finds no
    such attribute and returns [None] without asking the engine;
    [has_many] filters the employees on a column [departments_id]. *)
Lemma relations_do_not_singularize :
  resolve_fk sample_env (cls_table_name Example.Department) None
    = Ok "departments_id" ∧
  dict_get (_data emp_loaded) "department_id" = Some (VInt 1) ∧
  belongs_to sample_env emp_loaded Example.Department None world0
    = (Ok None, world0) ∧
  trace (has_many sample_env dept_row Example.Employee None world0).2 =
    [ EvConnect 0; EvExecute 0 "PRAGMA foreign_keys = ON" [];
      EvExecute 0 "SELECT * FROM employees WHERE departments_id = ?" [VInt 1] ].
Proof. vm_compute. repeat split. Qed.

(** * Further properties *)

(** ** Schema compiler: the accumulators in closed form *)

Lemma scan_fold items acc :
  fold_left scan_item items acc =
  MkScan (columns acc ++ omap column_def items)
         (primary_keys acc ++ omap pk_column items)
         (foreign_keys acc ++ omap fk_column items)
         (unique_constraints acc ++ omap unique_column items).
Proof.
  revert acc. induction items as [|[name f] items IH]; intros acc.
  - simpl. rewrite !app_nil_r. by destruct acc.
  - simpl fold_left. rewrite IH. destruct f as [c|m n|]; simpl.
    + destruct (primary_key c), (unique c); simpl;
        by rewrite <- ?app_assoc.
    + by rewrite <- !app_assoc.
    + done.
Qed.

(** X1: the first loop of [create_table] yields one column definition per
    declared [Column] or [ForeignKey], in declaration order, with NULL or
    NOT NULL always spelled out and UNIQUE for unique columns; the columns
    flagged as primary key; the relations; and, for the table-level UNIQUE
    clauses, the unique columns that are not primary keys.  Items that
    are not descriptors contribute nothing. *)
Theorem scan_closed_form (items : list (string * Field)) :
  scan items =
  MkScan (omap column_def items) (omap pk_column items)
         (omap fk_column items) (omap unique_column items).
Proof. unfold scan. by rewrite scan_fold. Qed.

Lemma first_primary_key_head items :
  first_primary_key items = head (omap pk_column items).
Proof.
  induction items as [|[name f] items IH]; [done |].
  destruct f as [c|m n|]; simpl; [|done..].
  by destruct (primary_key c).
Qed.

(** X2: [get_primary_key] is the first of the columns that [create_table]
    lists in its PRIMARY KEY clause, and [id] when that list is empty;
    when several columns are flagged, [save] and [delete] identify a row
    by the first one alone. *)
Theorem get_primary_key_first_of_clause (cls : ModelClass) (conn_bound : bool) :
  get_primary_key cls =
  default "id" (head (primary_keys (scan (class_items cls conn_bound)))).
Proof.
  unfold get_primary_key. rewrite scan_class_items.
  unfold scan. rewrite scan_fold. simpl.
  by rewrite first_primary_key_head.
Qed.

(** ** Query builder: what the calls accumulate *)

Lemma append_nil_l (s : string) : "" +:+ s = s.
Proof. reflexivity. Qed.

Lemma chain_app b cs1 cs2 : chain b (cs1 ++ cs2) = chain (chain b cs1) cs2.
Proof. apply fold_left_app. Qed.

Lemma chain_cong {A} (f : QueryBuilder → A) :
  (∀ b b' c, f b = f b' → f (call b c) = f (call b' c)) →
  ∀ cs b b', f b = f b' → f (chain b cs) = f (chain b' cs).
Proof.
  intros Hcong cs. induction cs as [|c cs IH]; intros b b' H; [done |].
  apply IH. by apply Hcong.
Qed.

Lemma clauses_call_cong b b' c :
  clauses b = clauses b' → clauses (call b c) = clauses (call b' c).
Proof. unfold clauses. destruct c; simpl; intros [=]; congruence. Qed.

Lemma build_query_text_clauses b b' :
  clauses b = clauses b' → (_build_query b).1 = (_build_query b').1.
Proof.
  unfold clauses. intros [=]. rewrite !build_query_text. congruence.
Qed.

Lemma count_query_text_clauses b b' :
  clauses b = clauses b' → (count_query b).1 = (count_query b').1.
Proof.
  unfold clauses. intros [=]. rewrite !count_query_text. simpl. congruence.
Qed.

Lemma clauses_erase_params cs b b' :
  clauses b = clauses b' →
  clauses (chain b cs) = clauses (chain b' (erase_params <$> cs)).
Proof.
  revert b b'. induction cs as [|c cs IH]; intros b b' H; [done |].
  simpl. apply IH. revert H. unfold clauses.
  destruct c; simpl; intros [=]; congruence.
Qed.

(** X3: the values given to [where] and [having] never reach the
    statement text: the text of the full query and of the count query is
    the same when every call is made with its parameters taken away. *)
Theorem query_text_independent_of_parameters (b : QueryBuilder) (cs : list Call) :
  (_build_query (chain b cs)).1 =
    (_build_query (chain b (erase_params <$> cs))).1 ∧
  (count_query (chain b cs)).1 =
    (count_query (chain b (erase_params <$> cs))).1.
Proof.
  split.
  - by apply build_query_text_clauses, clauses_erase_params.
  - by apply count_query_text_clauses, clauses_erase_params.
Qed.

Lemma chain_params (cs : list Call) (b : QueryBuilder) :
  _params (chain b cs) = _params b ++ concat (call_params <$> cs).
Proof.
  revert b. induction cs as [|c cs IH]; intros b.
  - simpl. by rewrite app_nil_r.
  - change (chain b (c :: cs)) with (chain (call b c) cs). rewrite IH.
    destruct c; simpl; by rewrite <- ?app_assoc, ?app_nil_r.
Qed.

(** X4: the bound parameters are those of all [where] and [having] calls
    in call order, appended to the ones already there; a [having] call
    whose condition a later [having] replaces still leaves its
    parameters behind. *)
Theorem params_accumulate_in_call_order (b : QueryBuilder) (cs : list Call) :
  (_build_query (chain b cs)).2 = _params b ++ concat (call_params <$> cs) ∧
  (∀ c1 ps1 c2 ps2,
     _build_query (chain b [CHaving c1 ps1; CHaving c2 ps2]) =
     ((_build_query (chain b [CHaving c2 []])).1, _params b ++ ps1 ++ ps2)).
Proof.
  split; [apply chain_params |].
  intros c1 ps1 c2 ps2. unfold _build_query at 1.
  change (chain b [CHaving c1 ps1; CHaving c2 ps2])
    with (having (having b c1 ps1) c2 ps2).
  simpl. by rewrite <- app_assoc.
Qed.

Lemma chain_wheres (ws : list (string * list Value)) (b : QueryBuilder) :
  chain b ((λ p, CWhere p.1 p.2) <$> ws) =
  MkQueryBuilder (model_class b) (_select b) (_where b ++ ws.*1)
    (_params b ++ concat ws.*2) (_joins b) (_limit b) (_offset b)
    (_order_by b) (_group_by b) (_having b).
Proof.
  revert b. induction ws as [|[cond ps] ws IH]; intros b.
  - simpl. rewrite !app_nil_r. by destruct b.
  - change (chain b ((λ p, CWhere p.1 p.2) <$> (cond, ps) :: ws))
      with (chain (where_ b cond ps) ((λ p, CWhere p.1 p.2) <$> ws)).
    rewrite IH. simpl. by rewrite <- !app_assoc.
Qed.

(** X5: a chain of [where] calls on a fresh builder renders the
    predicates joined by AND in call order, after the table and with
    nothing else, and binds the parameters of the calls in the same
    order. *)
Theorem where_calls_render_conjunction
    (cls : ModelClass) (ws : list (string * list Value)) :
  _build_query (chain (query cls) ((λ p, CWhere p.1 p.2) <$> ws)) =
  ("SELECT * FROM " +:+ fmt_opt (_table_name cls) +:+
   match ws.*1 with
   | [] => ""
   | conds => " WHERE " +:+ str_join " AND " conds
   end,
   concat ws.*2).
Proof.
  rewrite chain_wheres. unfold _build_query. simpl. f_equal.
  unfold opt_part, int_part, joins_part, where_part. simpl.
  rewrite !append_nil_r, !append_assoc.
  destruct (ws.*1); [by rewrite !append_nil_r | done].
Qed.

(** A field that the calls of kind [k] leave alone does not see them. *)
Lemma chain_field_without {A} (f : QueryBuilder → A) (k : Kind)
    (cs : list Call) (b : QueryBuilder) :
  (∀ b c, kind c = k → f (call b c) = f b) →
  (∀ b b' c, f b = f b' → f (call b c) = f (call b' c)) →
  f (chain b cs) = f (chain b (filter (λ c, kind c ≠ k) cs)).
Proof.
  intros Hskip Hcong.
  apply (chain_field_filter f (λ c, kind c ≠ k)); [|done..].
  intros b0 c Hc. apply Hskip. by destruct (decide (kind c = k)).
Qed.

Ltac other_field :=
  apply chain_field_without;
  [ intros ? c0 ?; destruct c0; simpl in *; done
  | intros ? ? c0 ?; destruct c0; simpl in *; congruence ].

(** X6: [select], [limit], [offset], [order_by], [group_by] and [having]
    overwrite: once such a call is made, the earlier calls for the same
    clause have no effect on anything the statement prints. *)
Theorem single_valued_last_call_wins
    (b : QueryBuilder) (cs1 cs2 : list Call) (c : Call) :
  single_valued (kind c) = true →
  clauses (chain b (cs1 ++ c :: cs2)) =
  clauses (chain b (filter (λ c', kind c' ≠ kind c) cs1 ++ c :: cs2)).
Proof.
  intros Hsv. rewrite !chain_app.
  change (chain ?x (c :: cs2)) with (chain (call x c) cs2).
  apply chain_cong; [apply clauses_call_cong |].
  unfold clauses.
  destruct c; simpl in Hsv; try discriminate; simpl;
    repeat (f_equal; try other_field).
Qed.

Lemma single_valued_last_call_wins_witness :
  let b := query Example.Employee in
  (_build_query
     (chain b [CLimit (Some 10); COrderBy "name" "ASC"; CLimit (Some 3)])).1
  = "SELECT * FROM employees ORDER BY name ASC LIMIT 3".
Proof.
  intros b.
  exact (build_query_text_clauses _ _
           (single_valued_last_call_wins b
              [CLimit (Some 10); COrderBy "name" "ASC"] []
              (CLimit (Some 3)) eq_refl)).
Defined.

(** ** Queries that return one row *)

Lemma head_fmap {A B} (f : A → B) (l : list A) : head (f <$> l) = f <$> head l.
Proof. by destruct l. Qed.

Lemma where_limit_one_text (target : ModelClass) (cond : string) (v : Value) :
  _build_query (limit (where_ (query target) cond [v]) (Some 1)) =
  ("SELECT * FROM " +:+ fmt_opt (_table_name target) +:+ " WHERE " +:+ cond +:+
   " LIMIT 1", [v]).
Proof.
  unfold _build_query. simpl. f_equal.
  change (str_join " AND " [cond]) with cond.
  unfold opt_part, int_part, joins_part, where_part. simpl.
  by rewrite !append_nil_r, !append_assoc.
Qed.

Section SingleRow.

Context {Store : Type}.
Variable env : Env Store.

(** X7: [first] runs the query of the builder with its limit replaced by
    1, whatever limit was set before, and keeps that limit on the
    builder.  It returns the first row of the answer as an instance, and
    [None], not an error, when the answer has no row. *)
Theorem first_forces_limit_one
    (b : QueryBuilder) (w w1 : @World Store) (h : nat) :
  get_connection env (model_class b) w = (Ok h, w1) →
  let q := limit b (Some 1) in
  let sql := (_build_query q).1 in
  (first env b).2 = q ∧
  (∀ n, (_build_query (limit (limit b n) (Some 1))).1 = sql) ∧
  match execute_on env h w1 sql (_params b) with
  | Some (st, cursor) =>
      (first env b).1 w =
        (Ok (from_row (model_class b) <$> head (cur_rows cursor)),
         answered st (EvExecute h sql (_params b)) w1)
  | None =>
      (first env b).1 w =
        (Raise EngineError, log (EvExecute h sql (_params b)) w1)
  end.
Proof.
  intros Hconn q sql. split; [done |]. split; [done |].
  unfold first, all. cbn [fst].
  change (_build_query (limit b (Some 1))) with (sql, _params b).
  change (model_class (limit b (Some 1))) with (model_class b).
  cbv beta iota. unfold bind, ret. rewrite Hconn. unfold conn_execute.
  destruct (execute_on env h w1 sql (_params b)) as [[st c]|]; [|done].
  by rewrite head_fmap.
Qed.

(** X8: when the foreign-key attribute is among the values, [belongs_to]
    selects from the target table the row whose primary key equals that
    value, limited to one row, and returns it as an instance of the
    target, or [None] when the answer has no row. *)
Theorem belongs_to_selects_by_primary_key
    (self : Instance) (target : ModelClass) (foreign_key : option string)
    (fk : string) (v : Value) (w w1 : @World Store) (h : nat) :
  resolve_fk env (cls_table_name target) foreign_key = Ok fk →
  dict_get (_data self) fk = Some v →
  get_connection env target w = (Ok h, w1) →
  let sql :=
    "SELECT * FROM " +:+ fmt_opt (_table_name target) +:+ " WHERE " +:+
    get_primary_key target +:+ " = ? LIMIT 1" in
  match execute_on env h w1 sql [v] with
  | Some (st, cursor) =>
      belongs_to env self target foreign_key w =
        (Ok (from_row target <$> head (cur_rows cursor)),
         answered st (EvExecute h sql [v]) w1)
  | None =>
      belongs_to env self target foreign_key w =
        (Raise EngineError, log (EvExecute h sql [v]) w1)
  end.
Proof.
  intros Hfk Hv Hconn sql.
  unfold belongs_to, bind, of_outcome. rewrite Hfk, Hv.
  unfold first, all. cbn [fst].
  rewrite where_limit_one_text. cbv beta iota.
  change (model_class (limit _ _)) with target.
  unfold bind. rewrite Hconn. unfold conn_execute, ret.
  assert ("SELECT * FROM " +:+ fmt_opt (_table_name target) +:+ " WHERE " +:+
          (get_primary_key target +:+ " = ?") +:+ " LIMIT 1" = sql) as ->.
  { subst sql. by rewrite !append_assoc. }
  destruct (execute_on env h w1 sql [v]) as [[st c]|]; [|done].
  by rewrite head_fmap.
Qed.

(** X9: the relation helpers fail before any query is made.  Without a
    foreign-key name, a table name that is not a string makes both raise
    [AttributeError]; [has_many] on an instance whose values do not hold
    the primary key raises [KeyError], where [belongs_to] with a missing
    foreign key returns [None].  The process state is untouched. *)
Theorem relations_fail_before_querying
    (self : Instance) (target : ModelClass) (w : @World Store) :
  (_table_name target = None →
   belongs_to env self target None w = (Raise (AttributeError "lower"), w)) ∧
  ((∀ t, self_table_name self ≠ VStr t) →
   has_many env self target None w = (Raise (AttributeError "lower"), w)) ∧
  (∀ foreign_key fk,
     resolve_fk env (self_table_name self) foreign_key = Ok fk →
     dict_get (_data self) (get_primary_key (inst_class self)) = None →
     has_many env self target foreign_key w =
       (Raise (KeyError (get_primary_key (inst_class self))), w)).
Proof.
  split; [|split].
  - intros Hnone. unfold belongs_to, bind, of_outcome, cls_table_name.
    by rewrite Hnone.
  - intros Hnot. unfold has_many, bind, of_outcome. simpl.
    destruct (self_table_name self) as [|z|t]; [done..|].
    by destruct (Hnot t).
  - intros foreign_key fk Hfk Hpk. unfold has_many, bind, of_outcome, raise.
    by rewrite Hfk, Hpk.
Qed.

End SingleRow.

Lemma first_forces_limit_one_witness :
  let b := limit (where_ (query Example.Employee) "salary > ?" [VInt 1])
                 (Some 50) in
  let w1 := (get_connection sample_env Example.Employee world_two_rows).2 in
  (first sample_env b).1 world_two_rows =
    (Ok (Some (from_row Example.Employee [("id", VInt 1)])),
     answered 2
       (EvExecute 0 "SELECT * FROM employees WHERE salary > ? LIMIT 1"
                  [VInt 1]) w1) ∧
  (first sample_env b).1 world0 =
    (Ok None,
     answered 0
       (EvExecute 0 "SELECT * FROM employees WHERE salary > ? LIMIT 1"
                  [VInt 1])
       (get_connection sample_env Example.Employee world0).2).
Proof.
  intros b w1. split.
  - exact (proj2 (proj2 (first_forces_limit_one sample_env b
                           world_two_rows w1 0 eq_refl))).
  - exact (proj2 (proj2 (first_forces_limit_one sample_env b
                           world0 _ 0 eq_refl))).
Defined.

Lemma belongs_to_selects_by_primary_key_witness :
  let w1 := (get_connection sample_env Example.Department world_two_rows).2 in
  belongs_to sample_env emp_loaded Example.Department (Some "department_id")
             world_two_rows =
    (Ok (Some (from_row Example.Department [("id", VInt 1)])),
     answered 2
       (EvExecute 0 "SELECT * FROM departments WHERE id = ? LIMIT 1" [VInt 1])
       w1).
Proof.
  intros w1.
  exact (belongs_to_selects_by_primary_key sample_env emp_loaded Example.Department
           (Some "department_id") "department_id" (VInt 1)
           world_two_rows w1 0 eq_refl eq_refl eq_refl).
Defined.

Lemma relations_fail_before_querying_witness :
  belongs_to sample_env dept_new Model None world0
    = (Raise (AttributeError "lower"), world0) ∧
  has_many sample_env (new Model []) Example.Employee None world0
    = (Raise (AttributeError "lower"), world0) ∧
  has_many sample_env dept_new Example.Employee None world0
    = (Raise (KeyError "id"), world0).
Proof.
  destruct (relations_fail_before_querying sample_env dept_new Model world0)
    as (Hb & _ & _).
  destruct (relations_fail_before_querying sample_env (new Model []) Example.Employee
              world0) as (_ & Hm & _).
  destruct (relations_fail_before_querying sample_env dept_new Example.Employee
              world0) as (_ & _ & Hk).
  split; [exact (Hb eq_refl) |].
  split; [apply Hm; intros t; discriminate |].
  exact (Hk None "departments_id" eq_refl eq_refl).
Defined.

(** ** Persistence: failures, frame and commits *)

Lemma commits_app tr tr' : commits (tr ++ tr') = commits tr ++ commits tr'.
Proof. apply omap_app. Qed.

Section PersistenceMore.

Context {Store : Type}.
Variable env : Env Store.

(** Obtaining a connection commits nothing. *)
Lemma get_connection_commits cls (w : @World Store) :
  commits (trace (get_connection env cls w).2) = commits (trace w).
Proof.
  destruct (hasattr_conn cls w) as [h|] eqn:Hh.
  - by rewrite (get_connection_bound env cls w h Hh).
  - destruct (connect env (store w)) eqn:Hconn.
    + destruct (get_connection_unbound env cls w Hh Hconn) as (_ & _ & _ & ->).
      rewrite commits_app. simpl. by rewrite app_nil_r.
    + by rewrite (get_connection_refused env cls w Hh Hconn).
Qed.

Lemma dict_getitems_KeyError (d : Dict) (cols : list string) e :
  dict_getitems d cols = Raise e → ∃ k, e = KeyError k.
Proof.
  induction cols as [|c cols IH]; simpl; [done |].
  destruct (dict_get d c); [|intros [= <-]; by eexists].
  destruct (dict_getitems d cols); [done |].
  intros [= <-]. by apply IH.
Qed.

(** X10: whenever [save] raises, for whatever reason, the dirty set is
    as it was before the call, no commit has gone through, and no value
    other than the primary key has changed.  The instance is in fact
    untouched, with one exception: when the commit that follows an
    INSERT raises, the primary-key attribute already holds the
    [lastrowid] of the row.  The layer's own [ValueError] is raised
    exactly when no table name is bound, and then nothing at all has
    happened. *)
Theorem save_failure_leaves_instance (self : Instance) (w : @World Store) :
  let r := save env (self, w) in
  let pk := get_primary_key (inst_class self) in
  (∀ e, r.1 = Raise e →
        _modified r.2.1 = _modified self ∧
        (∀ k, k ≠ pk → dict_get (_data r.2.1) k = dict_get (_data self) k) ∧
        commits (trace r.2.2) = commits (trace w) ∧
        (r.2.1 = self ∨
         is_not_None (data_get self pk) = false ∧
         is_not_None (data_get r.2.1 pk) = true ∧
         last (trace r.2.2) = EvCommitFailed <$> hasattr_conn (inst_class self) r.2.2)) ∧
  (∀ e, r.1 = Raise e → (∀ st, commit env st ≠ None) → r.2.1 = self) ∧
  ((∃ msg, r.1 = Raise (ValueError msg)) ↔
   py_truthy (self_table_name self) = false) ∧
  (py_truthy (self_table_name self) = false → r.2 = (self, w)).
Proof.
  intros r pk. subst r. rewrite save_unfold. simpl. fold pk.
  pose proof (get_connection_commits (inst_class self) w) as Hcommits.
  destruct (py_truthy (self_table_name self)); simpl;
    [|by (repeat split; eauto)].
  destruct (get_connection env (inst_class self) w) as [[h|e0] w1] eqn:Hc;
    simpl in Hcommits.
  - apply get_connection_Ok in Hc.
    destruct (is_open h w1); simpl;
      [|repeat split; try done; try (by left); by intros [msg [=]]].
    destruct (is_not_None (data_get self pk)) eqn:Hb.
    + destruct (dict_getitems _ _) as [values|e1] eqn:Hg.
      * destruct (execute env (store w1) _ _) as [[st c]|].
        -- destruct (commit env st) as [st'|] eqn:Hcm; simpl.
           ++ repeat split; try done. by intros [msg [=]].
           ++ unfold log, answered; simpl.
              rewrite !commits_app, Hcommits. simpl. rewrite !app_nil_r.
              repeat split; try done; try (by left). by intros [msg [=]].
        -- simpl. unfold log, answered; simpl.
           rewrite !commits_app, Hcommits. simpl. rewrite !app_nil_r.
           repeat split; try done; try (by left). by intros [msg [=]].
      * apply dict_getitems_KeyError in Hg as [k ->]. simpl.
        repeat split; try done; try (by left). by intros [msg [=]].
    + destruct (dict_getitems _ _) as [values|e1] eqn:Hg.
      * destruct (execute env (store w1) _ _) as [[st c]|].
        -- destruct (commit env st) as [st'|] eqn:Hcm; simpl.
           ++ repeat split; try done. by intros [msg [=]].
           ++ unfold log, answered; simpl.
              rewrite !commits_app, Hcommits. simpl. rewrite !app_nil_r.
              split; [|split; [|split]].
              ** intros e _. split; [by destruct (truthy_str pk) |].
                 split.
                 { intros k Hk. destruct (truthy_str pk); [|done]. simpl.
                   by rewrite dict_get_set_ne. }
                 split; [done |].
                 destruct (truthy_str pk); [|by left]. right.
                 split; [done |]. unfold data_get. simpl.
                 rewrite dict_get_set_eq. split; [done |].
                 change (hasattr_conn (inst_class self) (MkWorld _ _ _ _ _))
                   with (hasattr_conn (inst_class self) w1).
                 rewrite Hc. simpl. by rewrite last_snoc.
              ** intros e _ Hnever. by destruct (Hnever st).
              ** split; [by intros [msg [=]] | done].
              ** done.
        -- simpl. unfold log, answered; simpl.
           rewrite !commits_app, Hcommits. simpl. rewrite !app_nil_r.
           repeat split; try done; try (by left). by intros [msg [=]].
      * apply dict_getitems_KeyError in Hg as [k ->]. simpl.
        repeat split; try done; try (by left). by intros [msg [=]].
  - apply get_connection_Raise in Hc as ->. simpl in *.
    repeat split; try done; try (by left). by intros [msg [=]].
Qed.

(** X11: [delete] raises the layer's own [ValueError] exactly when no
    table name is bound or the primary-key attribute holds no value, and
    then nothing has happened.  Otherwise, once a connection is obtained,
    it sends the DELETE for that key value and commits it if the engine
    accepts it; if the engine refuses the statement, no commit is
    attempted, and if the commit raises, so does [delete]. *)
Theorem delete_requires_table_and_key (self : Instance) (w : @World Store) :
  let table := self_table_name self in
  let pk := get_primary_key (inst_class self) in
  let pk_value := data_get self pk in
  ((∃ msg, (delete env (self, w)).1 = Raise (ValueError msg)) ↔
   py_truthy table = false ∨ is_not_None pk_value = false) ∧
  (py_truthy table = false ∨ is_not_None pk_value = false →
   (delete env (self, w)).2 = (self, w)) ∧
  (∀ h w1,
     py_truthy table = true → is_not_None pk_value = true →
     get_connection env (inst_class self) w = (Ok h, w1) →
     let sql := "DELETE FROM " +:+ py_str table +:+ " WHERE " +:+ pk +:+ " = ?" in
     match execute_on env h w1 sql [pk_value] with
     | Some (st, _) =>
         match commit env st with
         | Some st' =>
             delete env (self, w) =
               (Ok tt,
                (self,
                 answered st' (EvCommit h)
                   (answered st (EvExecute h sql [pk_value]) w1)))
         | None =>
             delete env (self, w) =
               (Raise EngineError,
                (self,
                 log (EvCommitFailed h)
                   (answered st (EvExecute h sql [pk_value]) w1)))
         end
     | None =>
         delete env (self, w) =
           (Raise EngineError, (self, log (EvExecute h sql [pk_value]) w1))
     end).
Proof.
  intros table pk pk_value. rewrite delete_unfold. simpl.
  fold table pk pk_value.
  destruct (py_truthy table); simpl.
  - destruct (is_not_None pk_value); simpl.
    + split; [|split].
      * split; [|by intros [|]].
        intros [msg H].
        destruct (get_connection env (inst_class self) w) as [[h|e] w1] eqn:Hc.
        -- destruct (execute_on env h w1 _ _) as [[st c]|]; [|done].
           by destruct (commit env st).
        -- apply get_connection_Raise in Hc as ->. done.
      * by intros [|].
      * intros h w1 _ _ ->. unfold delete_sql.
        destruct (execute_on env h w1 _ _) as [[st c]|]; [|done].
        by destruct (commit env st).
    + split; [|split]; [split; [by right | by eexists] | done | done].
  - split; [|split]; [split; [by left | by eexists] | done | done].
Qed.

(** X12: a successful [save] changes no attribute value other than the
    primary key, leaves the instance bound, keeps the values mapping as
    it is when the instance was bound already, and commits exactly once,
    on the connection of the instance's class. *)
Theorem save_success_changes_only_key
    (self self' : Instance) (w w' : @World Store) :
  save env (self, w) = (Ok tt, (self', w')) →
  truthy_str (get_primary_key (inst_class self)) = true →
  let pk := get_primary_key (inst_class self) in
  (∀ k, k ≠ pk → dict_get (_data self') k = dict_get (_data self) k) ∧
  is_not_None (data_get self' pk) = true ∧
  (is_not_None (data_get self pk) = true → _data self' = _data self) ∧
  inst_class self' = inst_class self ∧
  match hasattr_conn (inst_class self) w' with
  | Some h => commits (trace w') = commits (trace w) ++ [h]
  | None => False
  end.
Proof.
  intros Hsave Hpk pk. rewrite save_unfold in Hsave. simpl in Hsave.
  pose proof (get_connection_commits (inst_class self) w) as Hcommits.
  destruct (py_truthy (self_table_name self)); [|done]. simpl in Hsave.
  destruct (get_connection env (inst_class self) w) as [[h|e0] w1] eqn:Hc;
    [|done].
  apply get_connection_Ok in Hc. simpl in Hcommits.
  destruct (is_open h w1); [|done]. simpl in Hsave.
  destruct (is_not_None (data_get self _)) eqn:Hb.
  - destruct (dict_getitems _ _) as [values|e1]; [|done].
    destruct (execute env (store w1) _ _) as [[st c]|]; [|done].
    destruct (commit env st) as [st'|]; [|done].
    injection Hsave as <- <-. simpl.
    change (hasattr_conn (inst_class self) (answered _ _ (answered _ _ w1)))
      with (hasattr_conn (inst_class self) w1).
    rewrite Hc. unfold answered; simpl.
    rewrite !commits_app, Hcommits. simpl. by rewrite app_nil_r.
  - destruct (dict_getitems _ _) as [values|e1]; [|done].
    destruct (execute env (store w1) _ _) as [[st c]|]; [|done].
    destruct (commit env st) as [st'|]; [|done].
    injection Hsave as <- <-. rewrite Hpk. simpl.
    change (hasattr_conn (inst_class self) (answered _ _ (answered _ _ w1)))
      with (hasattr_conn (inst_class self) w1).
    rewrite Hc. unfold answered, data_get; simpl.
    rewrite !commits_app, Hcommits. simpl. rewrite app_nil_r.
    fold pk. rewrite dict_get_set_eq.
    split; [|done]. intros k Hk. by rewrite dict_get_set_ne.
Qed.

Lemma dict_keys_set (d : Dict) (k : string) (v : Value) :
  dict_keys (dict_set d k v) =
  if dict_mem d k then dict_keys d else dict_keys d ++ [k].
Proof.
  induction d as [|[k' v'] d IH]; [done |].
  unfold dict_mem. simpl dict_set. simpl dict_get.
  destruct (decide (k' = k)) as [->|Hne]; [done |].
  change (dict_keys ((k', v') :: dict_set d k v))
    with (k' :: dict_keys (dict_set d k v)).
  rewrite IH. unfold dict_mem. by destruct (dict_get d k).
Qed.

(** X13: an attribute write through [__setattr__].  Left out are the
    names [_data], [_modified] and [_relations], a write to which
    rebinds the slot itself, and the names that [object] manages.  Any
    other underscore name is bound on the instance and leaves values,
    dirty set and relation cache alone.  A public name that is not in the
    relation cache gets the value, becomes dirty, and keeps its place
    among the keys if it was one, else is appended; no other value and
    no other dirty name changes. *)
Theorem setattr_records_write (self : Instance) (name : string) (value : Value) :
  (Model_setattr self name value = None ↔
   name ∈ slot_names ++ object_names) ∧
  (startswith_underscore name = true → name ∉ slot_names ++ object_names →
   match Model_setattr self name value with
   | Some self' =>
       _data self' = _data self ∧ _modified self' = _modified self ∧
       _relations self' = _relations self ∧
       dict_get (_extra self') name = Some value
   | None => False
   end) ∧
  (startswith_underscore name = false →
   dict_mem (_relations self) name = false →
   match Model_setattr self name value with
   | Some self' =>
       dict_get (_data self') name = Some value ∧
       (∀ k, k ≠ name → dict_get (_data self') k = dict_get (_data self) k) ∧
       dict_keys (_data self') =
         (if dict_mem (_data self) name then dict_keys (_data self)
          else dict_keys (_data self) ++ [name]) ∧
       (∀ k, k ∈ _modified self' ↔ k = name ∨ k ∈ _modified self) ∧
       _relations self' = _relations self
   | None => False
   end).
Proof.
  unfold Model_setattr. split; [|split].
  - destruct (startswith_underscore name) eqn:Hu.
    + destruct (bool_decide (name ∈ slot_names ++ object_names)) eqn:Hs.
      * by apply bool_decide_eq_true in Hs.
      * apply bool_decide_eq_false in Hs. by split.
    + split; [done |]. intros Hs. exfalso.
      unfold slot_names, object_names in Hs. simpl in Hs.
      repeat (apply elem_of_cons in Hs as [->|Hs]; [done |]).
      by apply elem_of_nil in Hs.
  - intros -> Hs. rewrite bool_decide_eq_false_2 by done. simpl.
    by rewrite dict_get_set_eq.
  - intros -> Hrel. unfold setattr_public. rewrite Hrel. simpl.
    split; [apply dict_get_set_eq |].
    split; [intros k Hk; by apply dict_get_set_ne |].
    split; [apply dict_keys_set |]. split; [|done].
    intros k. set_solver.
Qed.

(** X14: assigning one attribute of a clean, bound instance and saving
    sends an UPDATE that sets that column alone, bound to the new value
    and then to the key value as it is after the write.  When the
    attribute assigned is the primary key itself, the WHERE clause is
    bound to the new key, not to the one the row was loaded with.  On
    a connection that has been closed, [save] raises without sending
    anything. *)
Theorem write_then_save_updates_one_column
    (self : Instance) (name : string) (value : Value)
    (w w1 : @World Store) (h : nat) :
  _modified self = ∅ →
  startswith_underscore name = false →
  dict_mem (_relations self) name = false →
  py_truthy (self_table_name self) = true →
  let self1 := setattr_public self name value in
  let pk := get_primary_key (inst_class self) in
  is_not_None (data_get self1 pk) = true →
  get_connection env (inst_class self) w = (Ok h, w1) →
  let sql :=
    "UPDATE " +:+ py_str (self_table_name self) +:+ " SET " +:+ name +:+
    " = ? WHERE " +:+ pk +:+ " = ?" in
  let params := [value; data_get self1 pk] in
  Model_setattr self name value = Some self1 ∧
  (if is_open h w1 then
     match execute env (store w1) sql params with
     | Some (st, _) =>
         match commit env st with
         | Some st' =>
             save env (self1, w) =
               (Ok tt,
                (clear_modified self1,
                 answered st' (EvCommit h)
                   (answered st (EvExecute h sql params) w1)))
         | None =>
             save env (self1, w) =
               (Raise EngineError,
                (self1,
                 log (EvCommitFailed h)
                   (answered st (EvExecute h sql params) w1)))
         end
     | None =>
         save env (self1, w) =
           (Raise EngineError, (self1, log (EvExecute h sql params) w1))
     end
   else save env (self1, w) = (Raise EngineError, (self1, w1))) ∧
  (name = pk → params = [value; value]).
Proof.
  intros Hclean Hpub Hrel Htable self1 pk Hbound Hconn sql params.
  assert (self1 = MkInstance (inst_class self)
                    (dict_set (_data self) name value) {[name]}
                    (_relations self) (_extra self)) as Hself1.
  { subst self1. unfold setattr_public. rewrite Hrel, Hclean.
    by rewrite union_empty_r_L. }
  split; [unfold Model_setattr; by rewrite Hpub |].
  split.
  - rewrite save_unfold. simpl.
    replace (self_table_name self1) with (self_table_name self)
      by (by rewrite Hself1).
    replace (inst_class self1) with (inst_class self) by (by rewrite Hself1).
    fold pk. rewrite Htable, Hconn. simpl.
    destruct (is_open h w1); simpl; [|done].
    rewrite Hbound.
    replace (_modified self1) with ({[name]} : gset string)
      by (by rewrite Hself1).
    rewrite set_iter_singleton. simpl.
    replace (dict_get (_data self1) name) with (Some value)
      by (rewrite Hself1; simpl; by rewrite dict_get_set_eq).
    simpl.
    assert (update_sql (py_str (self_table_name self)) pk [name] = sql) as ->.
    { subst sql. unfold update_sql. simpl.
      change (str_join ", " [name +:+ " = ?"]) with (name +:+ " = ?").
      by rewrite !append_assoc. }
    fold params.
    destruct (execute env (store w1) sql params) as [[st c]|]; [|done].
    by destruct (commit env st).
  - intros ->. subst params. f_equal. f_equal.
    unfold data_get. rewrite Hself1. simpl. by rewrite dict_get_set_eq.
Qed.

Lemma relations_save self (w : @World Store) :
  _relations (save env (self, w)).2.1 = _relations self.
Proof.
  rewrite save_unfold. simpl.
  destruct (negb _); [done |].
  destruct (get_connection _ _ _) as [[h|e] w1]; [|done].
  destruct (negb _); [done |].
  destruct (is_not_None _).
  - destruct (dict_getitems _ _) as [values|e]; [|done].
    destruct (execute env _ _ _) as [[st c]|]; [|done].
    by destruct (commit env st).
  - destruct (dict_getitems _ _) as [values|e]; [|done].
    destruct (execute env _ _ _) as [[st c]|]; [|done].
    destruct (commit env st); simpl; by destruct (truthy_str _).
Qed.

Lemma relations_delete self (w : @World Store) :
  _relations (delete env (self, w)).2.1 = _relations self.
Proof.
  rewrite delete_unfold. simpl.
  destruct (negb _); [done |]. destruct (negb _); [done |].
  destruct (get_connection _ _ _) as [[h|e] w1]; [|done].
  destruct (execute_on _ _ _ _ _) as [[st c]|]; [|done].
  by destruct (commit env st).
Qed.

Lemma relations_setattr self self' name v :
  Model_setattr self name v = Some self' →
  _relations self = [] → _relations self' = [].
Proof.
  unfold Model_setattr, setattr_public. intros H Hrel.
  destruct (startswith_underscore name).
  - destruct (bool_decide _); [done |]. by injection H as <-.
  - rewrite Hrel in H. by injection H as <-.
Qed.

(** X15: what holds of every instance along any sequence of saves,
    deletes and attribute writes that starts from an instance as
    [__init__] or [from_row] builds it, the writes being to any name
    but [_data], [_modified], [_relations] and the names that [object]
    manages: every dirty name is a key
    of the values mapping (so the UPDATE of [save] never meets a missing
    key), and the relation cache stays empty (so every write to a public
    name lands in the values mapping and marks the name dirty). *)
Theorem reachable_instances_keep_invariants (s s' : Instance * @World Store) :
  rtc (step env) s s' →
  dirty_in_values s.1 = true → _relations s.1 = [] →
  dirty_in_values s'.1 = true ∧ _relations s'.1 = [].
Proof.
  intros Hrtc Hdirty Hrel. split.
  - by apply (dirty_in_values_reachable env s s').
  - revert Hrel. clear Hdirty.
    induction Hrtc as [|s1 s2 s3 Hstep _ IH]; [done |].
    intros Hrel. apply IH. destruct Hstep; simpl in *.
    + by eapply relations_setattr.
    + by rewrite relations_save.
    + by rewrite relations_delete.
Qed.

End PersistenceMore.

(** ** Connections: reuse and closing *)

Section ConnectionsMore.

Context {Store : Type}.
Variable env : Env Store.

(** A call that found nothing in reach and succeeded has connected. *)
Lemma get_connection_Ok_connected cls (w w1 : @World Store) h :
  hasattr_conn cls w = None →
  get_connection env cls w = (Ok h, w1) → connect env (store w) = true.
Proof.
  intros Hno Hc. destruct (connect env (store w)) eqn:Hconn; [done |].
  by rewrite (get_connection_refused env cls w Hno Hconn) in Hc.
Qed.

(** X16: a call of [get_connection] that finds no connection in reach
    and cannot connect raises and binds nothing, so that the next call
    tries to connect again.  In every other case the class has a
    connection bound after the call, whether the call succeeded or the
    PRAGMA was refused, and the next call returns it without opening or
    sending anything; a PRAGMA that the engine refused is therefore
    never sent again.  When nothing was in reach before the call, the
    connection bound is the one the call opened. *)
Theorem get_connection_binds_once (cls : ModelClass) (w : @World Store) :
  let r := get_connection env cls w in
  (hasattr_conn cls w = None → connect env (store w) = false →
   r = (Raise EngineError, w)) ∧
  (hasattr_conn cls w = None → connect env (store w) = true →
   hasattr_conn cls r.2 = Some (next_handle w) ∧
   is_open (next_handle w) r.2 = true ∧
   connects (trace r.2) = connects (trace w) ++ [next_handle w]) ∧
  (is_Some (hasattr_conn cls w) ∨ connect env (store w) = true →
   match hasattr_conn cls r.2 with
   | Some h =>
       get_connection env cls r.2 = (Ok h, r.2) ∧
       (∀ h', r.1 = Ok h' → h' = h)
   | None => False
   end).
Proof.
  intros r. subst r. split; [|split].
  - apply get_connection_refused.
  - intros Hh Hconn.
    destruct (get_connection_unbound env cls w Hh Hconn)
      as (Hcc & Ho & _ & Htr).
    split; [unfold hasattr_conn; by rewrite Hcc, lookup_insert_eq |].
    split.
    + unfold is_open. rewrite Ho. apply bool_decide_eq_true_2. left.
    + rewrite Htr. unfold connects. rewrite omap_app. simpl. done.
  - intros Hcase.
    destruct (hasattr_conn cls w) as [h|] eqn:Hh.
    + rewrite (get_connection_bound env cls w h Hh). simpl. rewrite Hh.
      split; [by apply get_connection_bound |]. by intros h' [=].
    + destruct Hcase as [[h0 [=]]|Hconn].
      destruct (get_connection_unbound env cls w Hh Hconn) as (Hcc & _).
      assert (hasattr_conn cls (get_connection env cls w).2
              = Some (next_handle w)) as Hbound.
      { unfold hasattr_conn. by rewrite Hcc, lookup_insert_eq. }
      rewrite Hbound.
      split; [by apply get_connection_bound |].
      intros h' Hr.
      destruct (get_connection env cls w) as [[h0|e] w1] eqn:Hc; [|done].
      simpl in *. injection Hr as ->.
      apply get_connection_Ok in Hc. congruence.
Qed.

(** X17: a connection first requested on [Model] itself is bound on
    [Model], and every record type without a connection of its own then
    gets that same connection. *)
Theorem connection_on_Model_is_shared
    (cls : ModelClass) (w w1 : @World Store) (h : nat) :
  get_connection env Model w = (Ok h, w1) →
  class_conn w !! cls_name cls = None →
  get_connection env cls w1 = (Ok h, w1).
Proof.
  intros Hc Hown. apply get_connection_bound.
  pose proof (get_connection_Ok env Model w w1 h Hc) as HM.
  assert (class_conn w1 !! "Model" = Some h) as HM'.
  { unfold hasattr_conn in HM. simpl in HM.
    by destruct (class_conn w1 !! "Model"). }
  destruct (decide (cls_name cls = "Model")) as [Heq|Hne].
  - unfold hasattr_conn. by rewrite Heq, HM'.
  - assert (class_conn w1 !! cls_name cls = None) as Hown1.
    { destruct (hasattr_conn Model w) as [h0|] eqn:Hh.
      - rewrite (get_connection_bound env Model w h0 Hh) in Hc.
        by injection Hc as _ <-.
      - pose proof (get_connection_Ok_connected Model w w1 h Hh Hc) as Hconn.
        destruct (get_connection_unbound env Model w Hh Hconn) as (Hcc & _).
        rewrite Hc in Hcc. simpl in Hcc. rewrite Hcc.
        by rewrite lookup_insert_ne. }
    unfold hasattr_conn. by rewrite Hown1.
Qed.

Lemma not_elem_of_filter_ne (h : nat) (l : list nat) :
  h ∉ filter (λ h', h' ≠ h) l.
Proof. intros [Hne _]%list_elem_of_filter. done. Qed.

(** X18: [close_connection].  With no connection in reach it does
    nothing.  With a connection bound on the class itself it closes it
    and unbinds it.  With a connection only inherited from [Model] it
    closes it and then raises [AttributeError], leaving [Model] bound to
    the closed connection. *)
Theorem close_connection_cases (cls : ModelClass) (w : @World Store) :
  let r := close_connection cls w in
  (hasattr_conn cls w = None → r = (Ok tt, w)) ∧
  (∀ h, class_conn w !! cls_name cls = Some h →
        r.1 = Ok tt ∧
        class_conn r.2 = base.delete (cls_name cls) (class_conn w) ∧
        (h ∉ open_handles r.2) ∧ trace r.2 = trace w ++ [EvClose h] ∧
        store r.2 = store w) ∧
  (∀ h, class_conn w !! cls_name cls = None →
        class_conn w !! "Model" = Some h →
        r.1 = Raise (AttributeError "_conn") ∧
        class_conn r.2 = class_conn w ∧
        hasattr_conn cls r.2 = Some h ∧
        (h ∉ open_handles r.2) ∧ trace r.2 = trace w ++ [EvClose h]).
Proof.
  intros r. subst r. unfold close_connection. split; [|split].
  - by intros ->.
  - intros h Hown. unfold hasattr_conn. rewrite Hown. simpl.
    repeat split; try done. apply not_elem_of_filter_ne.
  - intros h Hown HM. unfold hasattr_conn. rewrite Hown, HM. simpl.
    rewrite Hown, HM.
    repeat split; try done. apply not_elem_of_filter_ne.
Qed.

(** X19: opening a connection for a class that had none in reach and
    closing it through the same class gives back the bindings there were
    before; the handle is closed, and the next call opens a new one. *)
Theorem open_close_round_trip
    (cls : ModelClass) (w w1 : @World Store) (h : nat) :
  hasattr_conn cls w = None →
  get_connection env cls w = (Ok h, w1) →
  let r := close_connection cls w1 in
  r.1 = Ok tt ∧ class_conn r.2 = class_conn w ∧ (h ∉ open_handles r.2) ∧
  hasattr_conn cls r.2 = None ∧
  (get_connection env cls r.2).1 ≠ Ok h.
Proof.
  intros Hno Hc r. subst r.
  pose proof (get_connection_Ok_connected cls w w1 h Hno Hc) as Hconn.
  destruct (get_connection_unbound env cls w Hno Hconn)
    as (Hcc & _ & Hnext & _).
  rewrite Hc in Hcc, Hnext. simpl in Hcc, Hnext.
  pose proof (get_connection_Ok env cls w w1 h Hc) as Hbound.
  assert (class_conn w !! cls_name cls = None ∧ class_conn w !! "Model" = None)
    as [Hown HM].
  { unfold hasattr_conn in Hno. by destruct (class_conn w !! cls_name cls). }
  assert (class_conn w1 !! cls_name cls = Some h) as Hown1.
  { unfold hasattr_conn in Hbound. rewrite Hcc, lookup_insert_eq in Hbound.
    by rewrite Hcc, lookup_insert_eq. }
  assert (h = next_handle w) as Hh.
  { rewrite Hcc, lookup_insert_eq in Hown1. by injection Hown1. }
  unfold close_connection, hasattr_conn. rewrite Hown1. simpl.
  assert (base.delete (cls_name cls) (class_conn w1) = class_conn w) as Hdel.
  { rewrite Hcc. rewrite delete_insert_eq. by apply delete_id. }
  rewrite Hdel.
  split; [done |]. split; [done |]. split; [apply not_elem_of_filter_ne |].
  split; [by rewrite Hown, HM |].
  set (w2 := MkWorld _ _ _ _ _).
  assert (hasattr_conn cls w2 = None) as Hno2.
  { unfold hasattr_conn. simpl. by rewrite Hown, HM. }
  destruct (get_connection env cls w2) as [[h2|e] w3] eqn:Hc2; [|done].
  simpl. intros [= ->].
  pose proof (get_connection_Ok env cls w2 w3 h Hc2) as Hb3.
  pose proof (get_connection_Ok_connected cls w2 w3 h Hno2 Hc2) as Hconn2.
  destruct (get_connection_unbound env cls w2 Hno2 Hconn2) as (Hcc3 & _).
  rewrite Hc2 in Hcc3. simpl in Hcc3.
  unfold hasattr_conn in Hb3. rewrite Hcc3, lookup_insert_eq in Hb3.
  injection Hb3 as Hb3. rewrite Hnext in Hb3. lia.
Qed.

End ConnectionsMore.

(** ** The properties above on sample data *)

Lemma save_failure_leaves_instance_witness :
  let unsaved := setattr_public dept_new "budget" (VInt 1) in
  let r := save failing_commit_env (unsaved, world0) in
  (save refusing_env (dept_loaded, world0)).1 = Raise EngineError ∧
  (save refusing_env (dept_loaded, world0)).2.1 = dept_loaded ∧
  commits (trace (save refusing_env (dept_loaded, world0)).2.2) = [] ∧
  r.1 = Raise EngineError ∧
  _modified r.2.1 = {["budget"]} ∪ ∅ ∧
  dict_get (_data r.2.1) "name" = Some (VStr "HR") ∧
  dict_get (_data r.2.1) "id" = Some (VInt 1) ∧
  commits (trace r.2.2) = [] ∧
  (∃ msg, (save sample_env (new Model [], world0)).1
          = Raise (ValueError msg)) ∧
  (save sample_env (new Model [], world0)).2 = (new Model [], world0).
Proof.
  intros unsaved r.
  destruct (save_failure_leaves_instance refusing_env dept_loaded world0)
    as (Hfail & Hsame & _ & _).
  destruct (save_failure_leaves_instance failing_commit_env unsaved world0)
    as (Hcommit & _ & _ & _).
  destruct (save_failure_leaves_instance sample_env (new Model []) world0)
    as (_ & _ & Hiff & Hnone).
  split; [reflexivity |].
  split; [apply (Hsame EngineError eq_refl); intros st; discriminate |].
  split; [exact (proj1 (proj2 (proj2 (Hfail EngineError eq_refl)))) |].
  split; [reflexivity |].
  destruct (Hcommit EngineError eq_refl) as (Hdirty & Hframe & Hnot & _).
  split; [exact Hdirty |].
  split; [apply Hframe; discriminate |].
  split; [reflexivity |].
  split; [exact Hnot |].
  split; [exact (proj2 Hiff eq_refl) | exact (Hnone eq_refl)].
Defined.

Lemma delete_requires_table_and_key_witness :
  let w1 := (get_connection sample_env Example.Department world0).2 in
  (∃ msg, (delete sample_env (dept_new, world0)).1 = Raise (ValueError msg)) ∧
  (delete sample_env (dept_new, world0)).2 = (dept_new, world0) ∧
  delete sample_env (dept_loaded, world0) =
    (Ok tt,
     (dept_loaded,
      answered 0 (EvCommit 0)
        (answered 0
           (EvExecute 0 "DELETE FROM departments WHERE id = ?" [VInt 1]) w1))) ∧
  delete failing_commit_env (dept_loaded, world0) =
    (Raise EngineError,
     (dept_loaded,
      log (EvCommitFailed 0)
        (answered 0
           (EvExecute 0 "DELETE FROM departments WHERE id = ?" [VInt 1]) w1))).
Proof.
  intros w1.
  destruct (delete_requires_table_and_key sample_env dept_new world0)
    as (Hiff & Hnothing & _).
  destruct (delete_requires_table_and_key sample_env dept_loaded world0)
    as (_ & _ & Hsend).
  destruct (delete_requires_table_and_key failing_commit_env dept_loaded world0)
    as (_ & _ & Hfail).
  split; [exact (proj2 Hiff (or_intror eq_refl)) |].
  split; [exact (Hnothing (or_intror eq_refl)) |].
  split; [exact (Hsend 0%nat w1 eq_refl eq_refl eq_refl) |].
  exact (Hfail 0%nat w1 eq_refl eq_refl eq_refl).
Defined.

Lemma save_success_changes_only_key_witness :
  let r := save sample_env (dept_new, world0) in
  r.1 = Ok tt ∧
  dict_get (_data r.2.1) "name" = dict_get (_data dept_new) "name" ∧
  is_not_None (data_get r.2.1 "id") = true ∧
  commits (trace r.2.2) = [0%nat].
Proof.
  intros r. split; [reflexivity |].
  destruct (save_success_changes_only_key sample_env dept_new r.2.1
              world0 r.2.2 eq_refl eq_refl)
    as (Hframe & Hbound & _ & _ & Hcommit).
  split; [apply Hframe; discriminate |].
  split; [exact Hbound | exact Hcommit].
Defined.

Lemma setattr_records_write_witness :
  Model_setattr dept_row "_data" (VInt 5) = None ∧
  Model_setattr dept_row "__class__" (VInt 5) = None ∧
  Model_setattr dept_row "budget" (VInt 5)
    = Some (setattr_public dept_row "budget" (VInt 5)) ∧
  dict_get (_data (setattr_public dept_row "budget" (VInt 5))) "budget"
    = Some (VInt 5) ∧
  dict_keys (_data (setattr_public dept_row "budget" (VInt 5)))
    = ["id"; "name"; "budget"] ∧
  _data <$> Model_setattr dept_row "_cache" (VInt 5) = Some (_data dept_row) ∧
  _modified <$> Model_setattr dept_row "_cache" (VInt 5) = Some ∅.
Proof.
  destruct (setattr_records_write dept_row "_data" (VInt 5)) as (Hslot & _).
  destruct (setattr_records_write dept_row "__class__" (VInt 5))
    as (Hobject & _).
  destruct (setattr_records_write dept_row "budget" (VInt 5)) as (_ & _ & Hpub).
  destruct (setattr_records_write dept_row "_cache" (VInt 5)) as (_ & Hund & _).
  destruct (Hpub eq_refl eq_refl) as (Hget & _ & Hkeys & _).
  assert ("_cache" ∉ slot_names ++ object_names) as Hnot
    by (apply (bool_decide_eq_false_1 ("_cache" ∈ slot_names ++ object_names));
        reflexivity).
  destruct (Hund eq_refl Hnot) as (Hdata & Hmod & _).
  split;
    [apply Hslot, (bool_decide_eq_true_1 ("_data" ∈ slot_names ++ object_names));
     reflexivity |].
  split;
    [apply Hobject,
       (bool_decide_eq_true_1 ("__class__" ∈ slot_names ++ object_names));
     reflexivity |].
  split; [reflexivity |].
  split; [exact Hget |]. split; [exact Hkeys |].
  split; [exact (f_equal Some Hdata) | exact (f_equal Some Hmod)].
Defined.

Lemma write_then_save_updates_one_column_witness :
  let w1 := (get_connection sample_env Example.Department world0).2 in
  let self1 := setattr_public dept_row "id" (VInt 7) in
  Model_setattr dept_row "id" (VInt 7) = Some self1 ∧
  save sample_env (self1, world0) =
    (Ok tt,
     (clear_modified self1,
      answered 0 (EvCommit 0)
        (answered 0
           (EvExecute 0 "UPDATE departments SET id = ? WHERE id = ?"
                      [VInt 7; VInt 7]) w1))) ∧
  save reversed_env (self1, world0) = save sample_env (self1, world0).
Proof.
  intros w1 self1.
  destruct (write_then_save_updates_one_column sample_env dept_row
              "id" (VInt 7) world0 w1 0 eq_refl eq_refl eq_refl eq_refl
              eq_refl eq_refl) as (Hset & Hsave & _).
  destruct (write_then_save_updates_one_column reversed_env dept_row
              "id" (VInt 7) world0 w1 0 eq_refl eq_refl eq_refl eq_refl
              eq_refl eq_refl) as (_ & Hsave' & _).
  split; [exact Hset |]. split; [exact Hsave |].
  exact (eq_trans Hsave' (eq_sym Hsave)).
Defined.

Lemma reachable_instances_keep_invariants_witness :
  let s' := save failing_commit_env
              (setattr_public dept_new "budget" (VInt 1), world0) in
  dirty_in_values s'.2.1 = true ∧ _relations s'.2.1 = [].
Proof.
  intros s'.
  apply (reachable_instances_keep_invariants failing_commit_env
           (dept_new, world0) s'.2); [|reflexivity..].
  eapply rtc_l;
    [apply (step_setattr _ dept_new (setattr_public dept_new "budget" (VInt 1))
              world0 "budget" (VInt 1)); reflexivity |].
  eapply rtc_l; [apply step_save |]. apply rtc_refl.
Defined.

Lemma get_connection_binds_once_witness :
  let r := get_connection refusing_env Example.Department world0 in
  let r' := get_connection silent_env Example.Department world0 in
  get_connection refusing_env Example.Department r.2 = (Ok 0%nat, r.2) ∧
  r'.1 = Raise EngineError ∧
  get_connection silent_env Example.Department r'.2 = (Ok 0%nat, r'.2) ∧
  get_connection no_connect_env Example.Department world0
    = (Raise EngineError, world0).
Proof.
  intros r r'.
  destruct (get_connection_binds_once refusing_env Example.Department world0)
    as (_ & _ & Hbound).
  destruct (get_connection_binds_once silent_env Example.Department world0)
    as (_ & _ & Hbound').
  destruct (get_connection_binds_once no_connect_env Example.Department world0)
    as (Hrefused & _).
  split; [exact (proj1 (Hbound (or_intror eq_refl))) |].
  split; [reflexivity |].
  split; [exact (proj1 (Hbound' (or_intror eq_refl))) |].
  exact (Hrefused eq_refl eq_refl).
Defined.

Lemma connection_on_Model_is_shared_witness :
  let w1 := (get_connection sample_env Model world0).2 in
  get_connection sample_env Example.Department w1 = (Ok 0%nat, w1) ∧
  get_connection sample_env Example.Project w1 = (Ok 0%nat, w1).
Proof.
  intros w1. split.
  - exact (connection_on_Model_is_shared sample_env Example.Department
             world0 w1 0 eq_refl eq_refl).
  - exact (connection_on_Model_is_shared sample_env Example.Project
             world0 w1 0 eq_refl eq_refl).
Defined.

Lemma close_connection_cases_witness :
  let shared := (get_connection sample_env Model world0).2 in
  let own := (get_connection sample_env Example.Department world0).2 in
  close_connection Example.Department world0 = (Ok tt, world0) ∧
  (close_connection Example.Department own).1 = Ok tt ∧
  class_conn (close_connection Example.Department own).2 !! "Department" = None ∧
  (close_connection Example.Department shared).1
    = Raise (AttributeError "_conn") ∧
  hasattr_conn Example.Department (close_connection Example.Department shared).2
    = Some 0%nat ∧
  open_handles (close_connection Example.Department shared).2 = [].
Proof.
  intros shared own.
  destruct (close_connection_cases Example.Department world0) as (Hnone & _).
  destruct (close_connection_cases Example.Department own) as (_ & Hown & _).
  destruct (close_connection_cases Example.Department shared) as (_ & _ & Hinh).
  destruct (Hown 0%nat eq_refl) as (Hok & Hcc & _).
  destruct (Hinh 0%nat eq_refl eq_refl) as (Hraise & _ & Hbound & _).
  split; [exact (Hnone eq_refl) |]. split; [exact Hok |].
  split; [rewrite Hcc; apply lookup_delete_eq |].
  split; [exact Hraise |]. split; [exact Hbound | reflexivity].
Defined.

Lemma open_close_round_trip_witness :
  let w1 := (get_connection sample_env Example.Department world0).2 in
  let w2 := (close_connection Example.Department w1).2 in
  class_conn w2 = class_conn world0 ∧
  hasattr_conn Example.Department w2 = None ∧
  (get_connection sample_env Example.Department w2).1 ≠ Ok 0%nat.
Proof.
  intros w1 w2.
  destruct (open_close_round_trip sample_env Example.Department world0 w1 0
              eq_refl eq_refl) as (_ & Hcc & _ & Hno & Hnew).
  split; [exact Hcc |]. split; [exact Hno | exact Hnew].
Defined.

(** Use after an inherited connection was closed.  [Model] stays bound
    to the closed connection: [save] raises at [conn.cursor()] without
    sending anything, and the calls that go through [conn.execute]
    raise as well. *)
Example use_after_inherited_close :
  let shared := (get_connection sample_env Model world0).2 in
  let closed := (close_connection Example.Department shared).2 in
  get_connection sample_env Example.Department closed = (Ok 0%nat, closed) ∧
  is_open 0 closed = false ∧
  save sample_env (dept_loaded, closed) = (Raise EngineError, (dept_loaded, closed)) ∧
  (delete sample_env (dept_loaded, closed)).1 = Raise EngineError ∧
  (create_table sample_env Example.Department closed).1 = Raise EngineError ∧
  (all sample_env (query Example.Department) closed).1 = Raise EngineError ∧
  (count sample_env (query Example.Department) closed).1 = Raise EngineError ∧
  commits (trace (delete sample_env (dept_loaded, closed)).2.2) = [].
Proof. vm_compute. repeat split. Qed.

(** ** Counting, loading, and instances built with their key *)

Lemma where_params_only (cs : list Call) :
  forallb one_param_per_where cs = true →
  concat (call_params <$> cs) =
    concat (call_params <$> filter (λ c, kind c = KWhere) cs) ∧
  length (where_texts cs) = length (concat (call_params <$> cs)).
Proof.
  induction cs as [|c cs IH]; [done |].
  intros [Hc Hcs]%andb_prop. destruct (IH Hcs) as [IH1 IH2].
  destruct c as [cols|cond ps|t o jt|n|n|col dir|col|cond ps];
    try (rewrite filter_cons_False by done; by split).
  - rewrite filter_cons_True by done.
    apply bool_decide_eq_true in Hc. split.
    + change (ps ++ concat (call_params <$> cs) =
              ps ++ concat (call_params <$>
                              filter (λ c, kind c = KWhere) cs)).
      by rewrite <- IH1.
    + change (S (length (where_texts cs)) =
              length (ps ++ concat (call_params <$> cs))).
      by rewrite length_app, Hc, IH2.
  - rewrite filter_cons_False by done.
    apply bool_decide_eq_true in Hc as ->. by split.
Qed.

(** X20: when every [where] call binds exactly one parameter and no
    [having] call binds any, [count] on a builder made by [query] binds
    exactly the parameters of the [where] calls, in call order. *)
Theorem count_binds_where_parameters (cls : ModelClass) (cs : list Call) :
  forallb one_param_per_where cs = true →
  (count_query (chain (query cls) cs)).2 =
  concat (call_params <$> filter (λ c, kind c = KWhere) cs).
Proof.
  intros H. destruct (where_params_only cs H) as [Hps Hlen].
  rewrite count_query_text. simpl.
  rewrite chain_where, chain_params. simpl.
  rewrite Hlen, <- Hps. apply firstn_all.
Qed.

Lemma count_binds_where_parameters_witness :
  (count_query
     (chain (query Example.Employee)
        [ CWhere "department_id = ?" [VInt 1]; CLimit (Some 5);
          CHaving (Some "hours > 0") []; CWhere "salary > ?" [VInt 40000] ])).2
  = [VInt 1; VInt 40000].
Proof.
  exact (count_binds_where_parameters Example.Employee
           [ CWhere "department_id = ?" [VInt 1]; CLimit (Some 5);
             CHaving (Some "hours > 0") []; CWhere "salary > ?" [VInt 40000] ]
           eq_refl).
Defined.

(** Outside that condition the slice goes wrong: a fragment with two
    parameters leaves the second unbound, and a [having] parameter given
    before a [where] is bound in its place. *)
Example count_slice_off :
  (count_query (where_ (query Example.Employee) "a = ? AND b = ?"
                       [VInt 1; VInt 2])).2 = [VInt 1] ∧
  (count_query (where_ (having (query Example.Employee) (Some "n > ?") [VInt 9])
                       "a = ?" [VInt 1])).2 = [VInt 9].
Proof. split; reflexivity. Qed.

Section Loading.

Context {Store : Type}.
Variable env : Env Store.

(** X21: [all] sends the statement of the builder once, commits nothing,
    and returns one instance of the target type per row of the answer,
    in the order of the rows; each holds exactly its row as values and
    has nothing dirty. *)
Theorem all_materializes_rows (b : QueryBuilder) (w w1 : @World Store) (h : nat) :
  get_connection env (model_class b) w = (Ok h, w1) →
  let sql := (_build_query b).1 in
  let params := (_build_query b).2 in
  match execute_on env h w1 sql params with
  | Some (st, cursor) =>
      let instances := from_row (model_class b) <$> cur_rows cursor in
      all env b w = (Ok instances, answered st (EvExecute h sql params) w1) ∧
      _data <$> instances = cur_rows cursor ∧
      Forall (λ i, _modified i = ∅ ∧ inst_class i = model_class b ∧
                   dirty_in_values i = true) instances
  | None =>
      all env b w = (Raise EngineError, log (EvExecute h sql params) w1)
  end ∧
  commits (trace (all env b w).2) = commits (trace w).
Proof.
  intros Hconn sql params.
  pose proof (get_connection_commits env (model_class b) w) as Hcommits.
  unfold all.
  change (_build_query b) with (sql, params). cbv beta iota.
  unfold bind, ret. rewrite Hconn in *. simpl in Hcommits.
  unfold conn_execute.
  destruct (execute_on env h w1 sql params) as [[st c]|]; simpl;
    unfold log, answered; simpl; rewrite commits_app, Hcommits;
    simpl; rewrite app_nil_r; (split; [|done]); [|done].
  split; [done |]. split.
  - rewrite <- list_fmap_compose. by rewrite list_fmap_id.
  - apply Forall_fmap, Forall_true. by intros row.
Qed.

(** X22: an instance that has its primary key among its values and
    nothing dirty, as [__init__] leaves it when the key is passed as a
    keyword argument and as [from_row] leaves it, is never inserted by
    [save]: the statement sent is the UPDATE with an empty SET list.  On
    a connection that has been closed, [save] raises without sending
    anything. *)
Theorem instance_built_with_key_is_updated
    (cls : ModelClass) (values : Dict) (self : Instance)
    (w w1 : @World Store) (h : nat) :
  self = new cls values ∨ self = from_row cls values →
  truthy_opt (_table_name cls) = true →
  is_not_None (default VNone (dict_get values (get_primary_key cls))) = true →
  get_connection env cls w = (Ok h, w1) →
  let pk := get_primary_key cls in
  let pk_value := default VNone (dict_get values pk) in
  let sql :=
    "UPDATE " +:+ fmt_opt (_table_name cls) +:+ " SET  WHERE " +:+ pk +:+ " = ?" in
  if is_open h w1 then
    match execute env (store w1) sql [pk_value] with
    | Some (st, _) =>
        match commit env st with
        | Some st' =>
            save env (self, w) =
              (Ok tt,
               (self,
                answered st' (EvCommit h)
                  (answered st (EvExecute h sql [pk_value]) w1)))
        | None =>
            save env (self, w) =
              (Raise EngineError,
               (self,
                log (EvCommitFailed h)
                  (answered st (EvExecute h sql [pk_value]) w1)))
        end
    | None =>
        save env (self, w) =
          (Raise EngineError, (self, log (EvExecute h sql [pk_value]) w1))
    end
  else save env (self, w) = (Raise EngineError, (self, w1)).
Proof.
  intros Hself Htable Hbound Hconn pk pk_value sql.
  assert (self = new cls values) as -> by (by destruct Hself as [->| ->]).
  assert (update_sql (fmt_opt (_table_name cls)) pk [] = sql) as Hsql
    by reflexivity.
  rewrite save_unfold. simpl.
  unfold self_table_name, data_get. simpl.
  destruct (_table_name cls) as [t|] eqn:Ht; [|done]. simpl in *.
  unfold truthy_str in Htable. rewrite Htable. simpl.
  rewrite Hconn. fold pk pk_value.
  change (is_not_None pk_value = true) in Hbound.
  destruct (is_open h w1); simpl; [|done].
  rewrite Hbound, set_iter_empty. simpl. rewrite Hsql.
  destruct (execute env (store w1) sql [pk_value]) as [[st c]|]; [|done].
  by destruct (commit env st).
Qed.

End Loading.

Lemma all_materializes_rows_witness :
  let b := where_ (query Example.Employee) "department_id = ?" [VInt 1] in
  let w1 := (get_connection sample_env Example.Employee world_two_rows).2 in
  all sample_env b world_two_rows =
    (Ok [ from_row Example.Employee [("id", VInt 1)];
          from_row Example.Employee [("id", VInt 2)] ],
     answered 2
       (EvExecute 0 "SELECT * FROM employees WHERE department_id = ?" [VInt 1])
       w1).
Proof.
  intros b w1.
  exact (proj1 (proj1 (all_materializes_rows sample_env b world_two_rows
                         w1 0 eq_refl))).
Defined.

Lemma instance_built_with_key_is_updated_witness :
  let self := new Example.Department [("id", VInt 5); ("name", VStr "Ops")] in
  let w1 := (get_connection sample_env Example.Department world0).2 in
  save sample_env (self, world0) =
    (Ok tt,
     (self,
      answered 0 (EvCommit 0)
        (answered 0
           (EvExecute 0 "UPDATE departments SET  WHERE id = ?" [VInt 5]) w1))) ∧
  save strict_env (self, world0) =
    (Raise EngineError,
     (self,
      log (EvExecute 0 "UPDATE departments SET  WHERE id = ?" [VInt 5]) w1)).
Proof.
  intros self w1. split.
  - exact (instance_built_with_key_is_updated sample_env Example.Department
             [("id", VInt 5); ("name", VStr "Ops")] self world0 w1 0
             (or_introl eq_refl) eq_refl eq_refl eq_refl).
  - exact (instance_built_with_key_is_updated strict_env Example.Department
             [("id", VInt 5); ("name", VStr "Ops")] self world0 w1 0
             (or_introl eq_refl) eq_refl eq_refl eq_refl).
Defined.
